(** * Insurance analytics pipeline: normalizer, pre-load healthcheck, loader

    A shallow embedding of
      - scripts/04_module_C_normalizer.py   (star-schema builders),
      - scripts/05_healthcheck_normalizer.py (pre-load validator),
      - scripts/09_module_E_loader.py        (transactional bulk loader),
    followed by the properties of the specification that concern them.

    Conventions.  A pandas DataFrame is a list of row records, in row
    order.  A cell that pandas holds as NaN / NaT / None is [None].  Text
    cells are [string]s; the key columns policy_id, product_key,
    state_code and client_id hold text (codes), not numbers.  A process
    that ends through [fail] (sys.exit(1)) or through an exception is a
    value of a result type. *)

From Stdlib Require Import ZArith NArith List Ascii String Uint63 Floats Lia.
From stdpp Require Import base list strings gmap sets sorting pretty.

Local Open Scope Z_scope.

(* ===================================================================== *)
(** * Calendar: what pandas and datetime compute on dates                *)
(* ===================================================================== *)

Module Calendar.

(** A calendar day of the proleptic Gregorian calendar, as Python's
    [datetime.date] has it: year, month, day. *)
Record civil := Civil { cyear : Z; cmonth : Z; cday : Z }.

Definition is_leap (y : Z) : bool :=
  ((y mod 4 =? 0) && negb (y mod 100 =? 0)) || (y mod 400 =? 0).

Definition days_in_month (y m : Z) : Z :=
  if m =? 2 then (if is_leap y then 29 else 28)
  else if (m =? 4) || (m =? 6) || (m =? 9) || (m =? 11) then 30
  else 31.

(** The day after [c]. *)
Definition next_day (c : civil) : civil :=
  if cday c <? days_in_month (cyear c) (cmonth c)
  then Civil (cyear c) (cmonth c) (cday c + 1)
  else if cmonth c <? 12
       then Civil (cyear c) (cmonth c + 1) 1
       else Civil (cyear c + 1) 1 1.

(** The day before [c]. *)
Definition prev_day (c : civil) : civil :=
  if 1 <? cday c
  then Civil (cyear c) (cmonth c) (cday c - 1)
  else if 1 <? cmonth c
       then Civil (cyear c) (cmonth c - 1)
                  (days_in_month (cyear c) (cmonth c - 1))
       else Civil (cyear c - 1) 12 31.

(** A date is a number of days since 1970-01-01 (negative before it), the
    way pandas stores a timestamp as a count from that epoch;
    [pd.date_range(.., freq="D")] steps the count by one day. *)
Definition date := Z.

Definition epoch : civil := Civil 1970 1 1.

(** The calendar day of a date: [d] days after the epoch, or [-d] days
    before it. *)
Definition civil_of (d : date) : civil :=
  match d with
  | Z0 => epoch
  | Zpos p => Pos.iter next_day epoch p
  | Zneg p => Pos.iter prev_day epoch p
  end.

(** [strftime("%Y%m%d")] read back with [astype(int)]. *)
Definition civil_key (c : civil) : Z :=
  cyear c * 10000 + cmonth c * 100 + cday c.

Definition date_key (d : date) : Z := civil_key (civil_of d).

(** [strftime("%Y%m01")] read back with [astype(int)]
    (build_fact_expenses). *)
Definition month_start_key (d : date) : Z :=
  cyear (civil_of d) * 10000 + cmonth (civil_of d) * 100 + 1.

(** [weekday()]: Monday is 0; 1970-01-01 is a Thursday. *)
Definition weekday (d : date) : Z := (d + 3) mod 7.

Definition month_name (m : Z) : string :=
  match m with
  | 1 => "January" | 2 => "February" | 3 => "March" | 4 => "April"
  | 5 => "May" | 6 => "June" | 7 => "July" | 8 => "August"
  | 9 => "September" | 10 => "October" | 11 => "November"
  | _ => "December"
  end%string.

Definition quarter (m : Z) : Z := (m - 1) / 3 + 1.

(** Decimal digits of [n], left-padded with zeros to [width]. *)
Definition zero_pad (width : nat) (n : Z) : string :=
  let s := pretty (Z.to_N n) in
  String.concat "" (replicate (width - String.length s) "0"%string) +:+ s.

(** [strftime("%Y-%m")]. *)
Definition year_month (c : civil) : string :=
  zero_pad 4 (cyear c) +:+ "-" +:+ zero_pad 2 (cmonth c).

(** [pd.date_range(a, b, freq="D")]: every day from [a] to [b], both
    included; empty when [b] is before [a]. *)
Definition date_range (a b : date) : list date :=
  map (fun i => a + Z.of_nat i) (seq 0 (Z.to_nat (b + 1 - a))).

(** The date of year-month-day, used to write dates in examples (the
    inverse of [civil_of] on calendar days). *)
Definition days_before_year (y : Z) : Z :=
  let p := y - 1 in 365 * p + p / 4 - p / 100 + p / 400.

Fixpoint days_before_month (y : Z) (m : nat) : Z :=
  match m with
  | O => 0
  | S k => days_before_month y k + days_in_month y (Z.of_nat (S k))
  end.

Definition ymd (y m d : Z) : date :=
  days_before_year y + days_before_month y (Z.to_nat (m - 1)) + d - 1 - 719162.

(** A day that exists: month 1..12, day 1..length of the month. *)
Definition valid_civil (c : civil) : Prop :=
  1 <= cmonth c <= 12 /\ 1 <= cday c <= days_in_month (cyear c) (cmonth c).

End Calendar.

(* ===================================================================== *)
(** * The pandas and Python operations the scripts call                   *)
(* ===================================================================== *)

Module Pandas.
Import Calendar.

(** A text cell of a DataFrame; [None] is NaN. *)
Definition cell := option string.

(** An exception, or the value a call returns. *)
Inductive result (E A : Type) : Type :=
| Ok (a : A)
| Raise (e : E).
Arguments Ok {E A} a.
Arguments Raise {E A} e.

Definition bind {E A B} (m : result E A) (k : A → result E B) : result E B :=
  match m with
  | Ok a => k a
  | Raise e => Raise e
  end.

Fixpoint traverse {E A B} (f : A → result E B) (l : list A) : result E (list B) :=
  match l with
  | [] => Ok []
  | x :: l' =>
      bind (f x) (fun y => bind (traverse f l') (fun ys => Ok (y :: ys)))
  end.

(** ** Text *)

Fixpoint map_chars (f : ascii → ascii) (s : string) : string :=
  match s with
  | EmptyString => EmptyString
  | String c s' => String (f c) (map_chars f s')
  end.

Definition is_lower (c : ascii) : bool :=
  ((97 <=? N_of_ascii c) && (N_of_ascii c <=? 122))%N.

(** [str.upper] on ASCII text: a..z go to A..Z, every other character
    stays.  (Python also maps letters outside ASCII; the model is exact
    for ASCII text only.) *)
Definition upper_char (c : ascii) : ascii :=
  if is_lower c then ascii_of_N (N_of_ascii c - 32) else c.

Definition str_upper : string → string := map_chars upper_char.

(** [str.replace(" ", "_")]. *)
Definition space_to_underscore (c : ascii) : ascii :=
  if Ascii.eqb c " " then "_"%char else c.

Definition str_replace_space : string → string := map_chars space_to_underscore.

(** [str.lower] on ASCII text. *)
Definition lower_char (c : ascii) : ascii :=
  if ((65 <=? N_of_ascii c) && (N_of_ascii c <=? 90))%N
  then ascii_of_N (N_of_ascii c + 32) else c.

Definition str_lower : string → string := map_chars lower_char.

(** [a + b] on two string cells: NaN when either side is NaN. *)
Definition cell_add (a b : cell) : cell :=
  match a, b with
  | Some x, Some y => Some (x +:+ y)
  | _, _ => None
  end.

(** A [.str] method applied to a cell: NaN stays NaN. *)
Definition cell_str (f : string → string) (a : cell) : cell := f <$> a.

(** ** Timestamps with NaT *)

(** [Series.min()] and [Series.max()] on a datetime column: NaT entries
    are skipped; the result is NaT when nothing is left. *)
Definition series_min (s : list (option date)) : option date :=
  fold_left (fun acc x =>
               match x, acc with
               | Some d, Some a => Some (Z.min a d)
               | Some d, None => Some d
               | None, _ => acc
               end) s None.

Definition series_max (s : list (option date)) : option date :=
  fold_left (fun acc x =>
               match x, acc with
               | Some d, Some a => Some (Z.max a d)
               | Some d, None => Some d
               | None, _ => acc
               end) s None.

(** [a < b] on Timestamp-or-NaT: every comparison with NaT is False. *)
Definition ts_lt (a b : option date) : bool :=
  match a, b with
  | Some x, Some y => x <? y
  | _, _ => false
  end.

(** Python's builtin [min(iterable)] and [max(iterable)]: the first item
    is kept until a later item compares strictly below (above) it.  On
    an empty iterable Python raises; the scripts only call them on four
    items, and the model answers NaT there. *)
Definition py_min (items : list (option date)) : option date :=
  match items with
  | [] => None
  | first :: rest =>
      fold_left (fun cur item => if ts_lt item cur then item else cur) rest first
  end.

Definition py_max (items : list (option date)) : option date :=
  match items with
  | [] => None
  | first :: rest =>
      fold_left (fun cur item => if ts_lt cur item then item else cur) rest first
  end.

(** ** Frames *)

(** [drop_duplicates] on the columns [key], keep="first": a row is kept
    when no earlier row has the same key; NaN equals NaN here. *)
Fixpoint drop_duplicates_from {A K} `{EqDecision K}
    (key : A → K) (seen : list K) (l : list A) : list A :=
  match l with
  | [] => []
  | x :: l' =>
      if decide (key x ∈ seen) then drop_duplicates_from key seen l'
      else x :: drop_duplicates_from key (key x :: seen) l'
  end.

Definition drop_duplicates {A K} `{EqDecision K} (key : A → K) (l : list A) : list A :=
  drop_duplicates_from key [] l.

(** [Series.duplicated().any()]. *)
Definition has_duplicates {K} `{EqDecision K} (col : list K) : bool :=
  bool_decide (¬ NoDup col).

(** Order of [sort_values] on a text column: code-point order, NaN
    last. *)
Definition cell_leb (a b : cell) : bool :=
  match a, b with
  | Some x, Some y => String.leb x y
  | _, None => true
  | None, Some _ => false
  end.

(** [sort_values(key)], ascending.  pandas does not fix the order of rows
    with equal keys; nothing below depends on it. *)
Definition sort_values {A} (key : A → cell) (l : list A) : list A :=
  merge_sort (fun r1 r2 => Is_true (cell_leb (key r1) (key r2))) l.

(** [left.merge(right, on=key, how="left")]: every left row, in order,
    paired with each right row of the same key (in right order), or with
    nothing when no right row has that key.  NaN keys match each
    other. *)
Definition merge_left {A B K} `{EqDecision K}
    (lkey : A → K) (rkey : B → K) (left : list A) (right : list B)
    : list (A * option B) :=
  flat_map (fun a =>
              match filter (fun b => rkey b = lkey a) right with
              | [] => [(a, None)]
              | ms => map (fun b => (a, Some b)) ms
              end) left.

End Pandas.

(* ===================================================================== *)
(** * Tables                                                              *)
(* ===================================================================== *)

(** Raw entity tables (output/raw/*.csv), with the columns the normalizer
    reads.  A date column holds, per cell, what [pd.to_datetime] makes of
    it: [Some d] for a cell that parses to the day [d]; [None] for a cell
    that is missing or does not parse (NaT under [errors="coerce"], an
    exception otherwise).  A time of day in the cell plays no role: the
    bounds of the time dimension go through [.date()] and the keys through
    [strftime("%Y%m%d")]. *)

Module RawClients.
Record row := Row {
  client_id : Pandas.cell;
  registration_year : Pandas.cell;
  age : Pandas.cell;
  gender : Pandas.cell;
  customer_segment : Pandas.cell;
  state_code : Pandas.cell;
  region_code : Pandas.cell;
  market_tier : Pandas.cell;
  max_policies_allowed : Pandas.cell;
}.
End RawClients.

Module RawPolicies.
Record row := Row {
  policy_id : Pandas.cell;
  policy_number : Pandas.cell;
  client_id : Pandas.cell;
  state_code : Pandas.cell;
  region_code : Pandas.cell;
  is_renewal : Pandas.cell;
  line_of_business : Pandas.cell;
  plan_name : Pandas.cell;
  effective_date : option Calendar.date;
  expiration_date : option Calendar.date;
  status : Pandas.cell;
  risk_score : Pandas.cell;
  monthly_premium : Pandas.cell;
  annual_premium : Pandas.cell;
}.
End RawPolicies.

Module RawClaims.
(** [fraud_flag] is [None] when the column is absent or the cell is
    NaN; both end as False in build_fact_claims. *)
Record row := Row {
  claim_id : Pandas.cell;
  policy_id : Pandas.cell;
  incident_date : option Calendar.date;
  report_date : option Calendar.date;
  claim_type : Pandas.cell;
  claim_status : Pandas.cell;
  fraud_flag : option bool;
  claim_amount_requested : Pandas.cell;
  claim_amount_approved : Pandas.cell;
  claim_amount_paid : Pandas.cell;
}.
End RawClaims.

Module RawExpenses.
(** [expense_month] is what [pd.to_datetime] makes of the cell, as for the
    other date columns. *)
Record row := Row {
  expense_id : Pandas.cell;
  expense_category : Pandas.cell;
  state_code : Pandas.cell;
  region_code : Pandas.cell;
  expense_month : option Calendar.date;
  expense_amount : float;
}.
End RawExpenses.

(** Star-schema tables (output/normalized/*.csv). *)

Module DimTime.
Record row := Row {
  date_key : Z;
  full_date : Calendar.civil;
  year : Z;
  month : Z;
  month_name : string;
  quarter : Z;
  year_month : string;
  day_of_week : Z;
  is_weekend : bool;
}.
End DimTime.

Module DimState.
Record row := Row {
  state_code : Pandas.cell;
  region_code : Pandas.cell;
  market_tier : Pandas.cell;
}.
End DimState.

Module DimClients.
Record row := Row {
  client_id : Pandas.cell;
  registration_year : Pandas.cell;
  age : Pandas.cell;
  gender : Pandas.cell;
  customer_segment : Pandas.cell;
  state_code : Pandas.cell;
  region_code : Pandas.cell;
  market_tier : Pandas.cell;
  max_policies_allowed : Pandas.cell;
}.
End DimClients.

Module DimProducts.
Record row := Row {
  product_key : Pandas.cell;
  line_of_business : Pandas.cell;
  plan_name : Pandas.cell;
}.
End DimProducts.

Module DimPolicies.
Record row := Row {
  policy_id : Pandas.cell;
  policy_number : Pandas.cell;
  client_id : Pandas.cell;
  state_code : Pandas.cell;
  region_code : Pandas.cell;
  is_renewal : Pandas.cell;
}.
End DimPolicies.

Module FactPolicies.
Record row := Row {
  policy_id : Pandas.cell;
  product_key : Pandas.cell;
  state_code : Pandas.cell;
  region_code : Pandas.cell;
  effective_date_key : Z;
  expiration_date_key : Z;
  policy_year : Z;
  policy_month : Z;
  status : Pandas.cell;
  risk_score : Pandas.cell;
  monthly_premium : Pandas.cell;
  annual_premium : Pandas.cell;
}.
End FactPolicies.

Module FactClaims.
Record row := Row {
  claim_id : Pandas.cell;
  policy_id : Pandas.cell;
  product_key : Pandas.cell;
  line_of_business : Pandas.cell;
  state_code : Pandas.cell;
  region_code : Pandas.cell;
  claim_type : Pandas.cell;
  claim_status : Pandas.cell;
  fraud_flag : bool;
  incident_date_key : Z;
  report_date_key : Z;
  settlement_date_key : option Z;
  days_to_settle : option Z;
  claim_amount_requested : Pandas.cell;
  claim_amount_approved : Pandas.cell;
  claim_amount_paid : Pandas.cell;
}.
End FactClaims.

Module FactExpenses.
Record row := Row {
  expense_id : Pandas.cell;
  expense_category : Pandas.cell;
  state_code : Pandas.cell;
  region_code : Pandas.cell;
  date_key : Z;
  expense_amount : float;
}.
End FactExpenses.

Module FactTaxes.
Record row := Row {
  tax_id : Pandas.cell;
  policy_id : Pandas.cell;
  tax_type : Pandas.cell;
  state_code : Pandas.cell;
  date_key : option Z;
  tax_base : float;
  tax_rate : float;
  tax_amount : float;
}.
End FactTaxes.

(* ===================================================================== *)
(** * scripts/04_module_C_normalizer.py                                   *)
(* ===================================================================== *)

Module Normalizer.
Import Calendar Pandas.

(** How a builder or the run ends when it does not return.  The names are
    the specification's; the comments say what the script does. *)
Inductive error :=
| MissingInputError (name : string)  (* load_csv: fail("Missing raw file: ..") *)
| EmptySourceError (name : string)   (* load_csv: fail(".. is empty") *)
| EmptyDateRangeError                (* pd.date_range(NaT, NaT): ValueError *)
| MalformedDateError.                (* pd.to_datetime / astype(int) raises *)

(** [load_csv(name)]: [file] is the parsed content of output/raw/name,
    [None] when the file does not exist. *)
Definition load_csv {A} (file : option (list A)) (name : string)
    : result error (list A) :=
  match file with
  | None => Raise (MissingInputError name)
  | Some [] => Raise (EmptySourceError name)
  | Some df => Ok df
  end.

(** ** Dimension: time *)

Definition time_row (d : date) : DimTime.row :=
  let c := civil_of d in
  {| DimTime.date_key := date_key d;
     DimTime.full_date := c;
     DimTime.year := cyear c;
     DimTime.month := cmonth c;
     DimTime.month_name := month_name (cmonth c);
     DimTime.quarter := quarter (cmonth c);
     DimTime.year_month := year_month c;
     DimTime.day_of_week := weekday d + 1;
     DimTime.is_weekend := 5 <=? weekday d |}.

Definition build_dim_time
    (policies : list RawPolicies.row) (claims : list RawClaims.row)
    : result error (list DimTime.row) :=
  let dates :=
    [ map RawPolicies.effective_date policies;
      map RawPolicies.expiration_date policies;
      map RawClaims.incident_date claims;
      map RawClaims.report_date claims ] in
  let min_date := py_min (map series_min dates) in
  let max_date := py_max (map series_max dates) in
  (* NaT.date() is NaT, and pd.date_range refuses a NaT bound *)
  match min_date, max_date with
  | Some lo, Some hi => Ok (map time_row (date_range lo hi))
  | _, _ => Raise EmptyDateRangeError
  end.

(** ** Dimensions *)

Definition state_of_client (c : RawClients.row) : DimState.row :=
  {| DimState.state_code := RawClients.state_code c;
     DimState.region_code := RawClients.region_code c;
     DimState.market_tier := RawClients.market_tier c |}.

Definition state_triple (r : DimState.row) : cell * cell * cell :=
  (DimState.state_code r, DimState.region_code r, DimState.market_tier r).

Definition build_dim_state (clients : list RawClients.row) : list DimState.row :=
  sort_values DimState.state_code
    (drop_duplicates state_triple (map state_of_client clients)).

(** The product key column, written the same way in build_dim_products,
    build_fact_policies and build_fact_claims:
    [(line_of_business + "_" + plan_name).str.upper().str.replace(" ", "_")]. *)
Definition derive_product_key (line_of_business plan_name : cell) : cell :=
  cell_str str_replace_space
    (cell_str str_upper
       (cell_add (cell_add line_of_business (Some "_"%string)) plan_name)).

Definition build_dim_products (policies : list RawPolicies.row)
    : list DimProducts.row :=
  let df :=
    drop_duplicates (fun p => p)
      (map (fun p => (RawPolicies.line_of_business p,
                      RawPolicies.plan_name p)) policies) in
  map (fun p =>
         {| DimProducts.product_key := derive_product_key (fst p) (snd p);
            DimProducts.line_of_business := fst p;
            DimProducts.plan_name := snd p |}) df.

(** ** Fact: policies *)

(** [pd.to_datetime(col)] then [.dt.strftime(..).astype(int)] on one
    cell: raises on a cell that does not parse or is missing. *)
Definition strict_date (d : option date) : result error date :=
  match d with
  | Some x => Ok x
  | None => Raise MalformedDateError
  end.

Definition fact_policy_row (p : RawPolicies.row)
    : result error FactPolicies.row :=
  bind (strict_date (RawPolicies.effective_date p)) (fun eff =>
  bind (strict_date (RawPolicies.expiration_date p)) (fun exp =>
  Ok {| FactPolicies.policy_id := RawPolicies.policy_id p;
        FactPolicies.product_key :=
          derive_product_key (RawPolicies.line_of_business p)
                             (RawPolicies.plan_name p);
        FactPolicies.state_code := RawPolicies.state_code p;
        FactPolicies.region_code := RawPolicies.region_code p;
        FactPolicies.effective_date_key := date_key eff;
        FactPolicies.expiration_date_key := date_key exp;
        FactPolicies.policy_year := cyear (civil_of eff);
        FactPolicies.policy_month := cmonth (civil_of eff);
        FactPolicies.status := RawPolicies.status p;
        FactPolicies.risk_score := RawPolicies.risk_score p;
        FactPolicies.monthly_premium := RawPolicies.monthly_premium p;
        FactPolicies.annual_premium := RawPolicies.annual_premium p |})).

Definition build_fact_policies (policies : list RawPolicies.row)
    : result error (list FactPolicies.row) :=
  traverse fact_policy_row policies.

(** ** Fact: claims *)

(** A column of the policy side after the left merge: NaN where the
    claim found no policy. *)
Definition enrich (col : RawPolicies.row → cell)
    (p : option RawPolicies.row) : cell :=
  match p with
  | Some r => col r
  | None => None
  end.

Definition fact_claim_row (cp : RawClaims.row * option RawPolicies.row)
    : result error FactClaims.row :=
  let (c, p) := cp in
  bind (strict_date (RawClaims.incident_date c)) (fun inc =>
  bind (strict_date (RawClaims.report_date c)) (fun rep =>
  Ok {| FactClaims.claim_id := RawClaims.claim_id c;
        FactClaims.policy_id := RawClaims.policy_id c;
        FactClaims.product_key :=
          derive_product_key (enrich RawPolicies.line_of_business p)
                             (enrich RawPolicies.plan_name p);
        FactClaims.line_of_business := enrich RawPolicies.line_of_business p;
        FactClaims.state_code := enrich RawPolicies.state_code p;
        FactClaims.region_code := enrich RawPolicies.region_code p;
        FactClaims.claim_type := RawClaims.claim_type c;
        FactClaims.claim_status := RawClaims.claim_status c;
        FactClaims.fraud_flag := default false (RawClaims.fraud_flag c);
        FactClaims.incident_date_key := date_key inc;
        FactClaims.report_date_key := date_key rep;
        FactClaims.settlement_date_key := None;
        FactClaims.days_to_settle := None;
        FactClaims.claim_amount_requested := RawClaims.claim_amount_requested c;
        FactClaims.claim_amount_approved := RawClaims.claim_amount_approved c;
        FactClaims.claim_amount_paid := RawClaims.claim_amount_paid c |})).

Definition build_fact_claims
    (claims : list RawClaims.row) (policies : list RawPolicies.row)
    : result error (list FactClaims.row) :=
  let df :=
    merge_left RawClaims.policy_id RawPolicies.policy_id claims policies in
  traverse fact_claim_row df.

(** ** Dimensions: clients, policies *)

Definition client_dim_row (c : RawClients.row) : DimClients.row :=
  {| DimClients.client_id := RawClients.client_id c;
     DimClients.registration_year := RawClients.registration_year c;
     DimClients.age := RawClients.age c;
     DimClients.gender := RawClients.gender c;
     DimClients.customer_segment := RawClients.customer_segment c;
     DimClients.state_code := RawClients.state_code c;
     DimClients.region_code := RawClients.region_code c;
     DimClients.market_tier := RawClients.market_tier c;
     DimClients.max_policies_allowed := RawClients.max_policies_allowed c |}.

Definition build_dim_clients (clients : list RawClients.row)
    : list DimClients.row :=
  map client_dim_row (drop_duplicates RawClients.client_id clients).



(** ** Fact: expenses *)

Definition fact_expense_row (e : RawExpenses.row)
    : result error FactExpenses.row :=
  bind (strict_date (RawExpenses.expense_month e)) (fun d =>
  Ok {| FactExpenses.expense_id := RawExpenses.expense_id e;
        FactExpenses.expense_category := RawExpenses.expense_category e;
        FactExpenses.state_code := RawExpenses.state_code e;
        FactExpenses.region_code := RawExpenses.region_code e;
        FactExpenses.date_key := month_start_key d;
        FactExpenses.expense_amount := RawExpenses.expense_amount e |}).

Definition build_fact_expenses (expenses : list RawExpenses.row)
    : result error (list FactExpenses.row) :=
  traverse fact_expense_row expenses.

(** ** The columns each builder returns, in order: what [save_csv] writes
    as the header of the staged file.  (build_fact_taxes is not modelled;
    its column list is.) *)

Definition dim_time_columns : list string :=
  ["date_key"; "full_date"; "year"; "month"; "month_name"; "quarter";
   "year_month"; "day_of_week"; "is_weekend"]%string.

Definition dim_state_columns : list string :=
  ["state_code"; "region_code"; "market_tier"]%string.

Definition dim_clients_columns : list string :=
  ["client_id"; "registration_year"; "age"; "gender"; "customer_segment";
   "state_code"; "region_code"; "market_tier"; "max_policies_allowed"]%string.

Definition dim_products_columns : list string :=
  ["product_key"; "line_of_business"; "plan_name"]%string.

Definition dim_policies_columns : list string :=
  ["policy_id"; "policy_number"; "client_id"; "state_code"; "region_code";
   "is_renewal"]%string.

Definition fact_policies_columns : list string :=
  ["policy_id"; "product_key"; "state_code"; "region_code";
   "effective_date_key"; "expiration_date_key"; "policy_year";
   "policy_month"; "status"; "risk_score"; "monthly_premium";
   "annual_premium"]%string.

Definition fact_claims_columns : list string :=
  ["claim_id"; "policy_id"; "product_key"; "line_of_business"; "state_code";
   "region_code"; "claim_type"; "claim_status"; "fraud_flag";
   "incident_date_key"; "report_date_key"; "settlement_date_key";
   "days_to_settle"; "claim_amount_requested"; "claim_amount_approved";
   "claim_amount_paid"]%string.

Definition fact_expenses_columns : list string :=
  ["expense_id"; "expense_category"; "state_code"; "region_code";
   "date_key"; "expense_amount"]%string.

Definition fact_taxes_columns : list string :=
  ["tax_id"; "policy_id"; "tax_type"; "state_code"; "date_key"; "tax_base";
   "tax_rate"; "tax_amount"]%string.

End Normalizer.

(* ===================================================================== *)
(** * scripts/05_healthcheck_normalizer.py                                *)
(* ===================================================================== *)

Module Healthcheck.
Import Pandas.

(** What [warn] prints.  The count is the [len] of the set of unresolved
    key values; the ratio is the float the script formats. *)
Inductive warning :=
| ExpirationOutsideDimTime (count : nat)
    (* "{count} expiration_date_key outside dim_time range (allowed)" *)
| SettlementOutsideDimTime (count : nat)
    (* "{count} settlement_date_key outside dim_time (allowed)" *)
| UnusualClaimsPoliciesRatio (ratio : float).
    (* "Claims / Policies ratio unusual: {ratio:.2f}" *)

(** A run of checks: [fail(msg)] prints the message and leaves with exit
    status 1; otherwise the warnings printed and the value returned.
    The [ok] lines carry no decision and are left out. *)
Inductive outcome (A : Type) : Type :=
| Fatal (msg : string)
| Passed (warnings : list warning) (a : A).
Arguments Fatal {A} msg.
Arguments Passed {A} warnings a.

#[global] Instance outcome_ret : MRet outcome := fun A a => Passed [] a.
#[global] Instance outcome_bind : MBind outcome := fun A B k m =>
  match m with
  | Fatal msg => Fatal msg
  | Passed ws a =>
      match k a with
      | Fatal msg => Fatal msg
      | Passed ws' b => Passed (ws ++ ws') b
      end
  end.

Definition fail (msg : string) : outcome unit := Fatal msg.
Definition warn (w : warning) : outcome unit := Passed [w] tt.
Definition ok : outcome unit := Passed [] tt.

(** [if cond: body]. *)
Definition when (cond : bool) (body : outcome unit) : outcome unit :=
  if cond then body else ok.

(** [set(df[col])] on a column of integer keys, and the truth value of a
    set. *)
Definition set_of `{Countable K} (col : list K) : gset K := list_to_set col.
Definition nonempty `{Countable K} (s : gset K) : bool := bool_decide (s ≠ ∅).

(** ** Sets of text keys.  [pd.read_csv] reads a column that holds some
    text as an object column: its cells are the texts, and every missing
    cell is the one object np.nan.  A column with no text at all, every
    cell missing, is read as float64: iterating it makes a new float NaN
    for each cell, and a NaN is equal to nothing but the very same object.
    So an element of [set(df[col])] is a text, np.nan, or the float made
    for one row in one evaluation of [set(..)]. *)
Inductive member :=
| Text (s : string)
| NaN_object
| NaN_float (operand : bool) (row : nat).

#[global] Instance member_eq_dec : EqDecision member.
Proof. solve_decision. Defined.

#[global] Instance member_countable : Countable member.
Proof.
  refine (inj_countable'
            (fun m => match m with
                      | Text s => inl s
                      | NaN_object => inr (inl tt)
                      | NaN_float o r => inr (inr (o, r))
                      end)
            (fun x => match x with
                      | inl s => Text s
                      | inr (inl _) => NaN_object
                      | inr (inr (o, r)) => NaN_float o r
                      end) _).
  by intros [].
Defined.

(** The dtype of a column of text keys: float64 when no cell holds a
    text. *)
Definition float64 (col : list cell) : bool :=
  forallb (fun c => bool_decide (c = None)) col.

(** [set(df[col])] on a column of text keys; [operand] tells the two
    evaluations of one difference apart. *)
Definition text_set (operand : bool) (col : list cell) : gset member :=
  if float64 col
  then list_to_set (imap (fun row _ => NaN_float operand row) col)
  else list_to_set (map (fun c => match c with
                                  | Some s => Text s
                                  | None => NaN_object
                                  end) col).

(** [set(a) - set(b)] on two columns of text keys. *)
Definition set_difference (a b : list cell) : gset member :=
  text_set true a ∖ text_set false b.

(** The files of output/normalized, parsed; [None] when a file is not
    there.  The directory itself is taken to exist. *)
Record staged := Staged {
  dim_time_csv : option (list DimTime.row);
  dim_state_csv : option (list DimState.row);
  dim_clients_csv : option (list DimClients.row);
  dim_products_csv : option (list DimProducts.row);
  dim_policies_csv : option (list DimPolicies.row);
  fact_policies_csv : option (list FactPolicies.row);
  fact_claims_csv : option (list FactClaims.row);
  fact_expenses_csv : option (list FactExpenses.row);
  fact_taxes_csv : option (list FactTaxes.row);
}.

Definition load_csv {A} (file : option (list A)) (name : string)
    : outcome (list A) :=
  match file with
  | None => Fatal ("Missing file: " +:+ name)
  | Some [] => Fatal (name +:+ " is empty")
  | Some df => Passed [] df
  end.

(** [check_files]: the message of the script also lists the missing
    names. *)
Definition check_files (s : staged) : outcome unit :=
  let present {A} (f : option (list A)) := bool_decide (is_Some f) in
  when (negb (present (dim_time_csv s) && present (dim_state_csv s)
              && present (dim_clients_csv s) && present (dim_products_csv s)
              && present (dim_policies_csv s) && present (fact_policies_csv s)
              && present (fact_claims_csv s) && present (fact_expenses_csv s)
              && present (fact_taxes_csv s)))
       (fail "Missing normalized files").

(** ** Dimension checks.  The required-column tests of check_dim_time and
    check_dim_state always pass on typed rows. *)

Definition check_dim_time (df : list DimTime.row) : outcome unit :=
  when (has_duplicates (map DimTime.date_key df))
       (fail "dim_time date_key is not unique").

Definition check_dim_state (df : list DimState.row) : outcome unit :=
  when (has_duplicates (map DimState.state_code df))
       (fail "Duplicate state_code in dim_state").

Definition check_dim_clients (df : list DimClients.row)
    (dim_state : list DimState.row) : outcome unit :=
  when (has_duplicates (map DimClients.client_id df))
       (fail "Duplicate client_id in dim_clients") ;;
  when (nonempty (set_difference (map DimClients.state_code df)
                    (map DimState.state_code dim_state)))
       (fail "dim_clients references unknown state_code").

Definition check_dim_products (df : list DimProducts.row) : outcome unit :=
  when (has_duplicates (map DimProducts.product_key df))
       (fail "Duplicate product_key in dim_products").

Definition check_dim_policies (df : list DimPolicies.row)
    (dim_clients : list DimClients.row) (dim_state : list DimState.row)
    : outcome unit :=
  when (has_duplicates (map DimPolicies.policy_id df))
       (fail "Duplicate policy_id in dim_policies") ;;
  when (nonempty (set_difference (map DimPolicies.client_id df)
                    (map DimClients.client_id dim_clients)))
       (fail "dim_policies references unknown client_id") ;;
  when (nonempty (set_difference (map DimPolicies.state_code df)
                    (map DimState.state_code dim_state)))
       (fail "dim_policies references unknown state_code").

(** ** Fact checks *)

Definition check_fact_policies (df : list FactPolicies.row)
    (dim_time : list DimTime.row) (dim_policies : list DimPolicies.row)
    (dim_products : list DimProducts.row) (dim_state : list DimState.row)
    : outcome unit :=
  when (nonempty (set_difference (map FactPolicies.policy_id df)
                    (map DimPolicies.policy_id dim_policies)))
       (fail "fact_policies references unknown policy_id") ;;
  when (nonempty (set_difference (map FactPolicies.product_key df)
                    (map DimProducts.product_key dim_products)))
       (fail "fact_policies references unknown product_key") ;;
  when (nonempty (set_difference (map FactPolicies.state_code df)
                    (map DimState.state_code dim_state)))
       (fail "fact_policies references unknown state_code") ;;
  when (nonempty (set_of (map FactPolicies.effective_date_key df)
                  ∖ set_of (map DimTime.date_key dim_time)))
       (fail "fact_policies has invalid effective_date_key") ;;
  (* Expiration date may exceed dim_time (allowed long-tail) *)
  let missing_exp :=
    set_of (map FactPolicies.expiration_date_key df)
    ∖ set_of (map DimTime.date_key dim_time) in
  when (nonempty missing_exp)
       (warn (ExpirationOutsideDimTime (size missing_exp))).

Definition check_fact_claims (df : list FactClaims.row)
    (dim_policies : list DimPolicies.row) (dim_products : list DimProducts.row)
    (dim_state : list DimState.row) (dim_time : list DimTime.row)
    : outcome unit :=
  when (nonempty (set_difference (map FactClaims.policy_id df)
                    (map DimPolicies.policy_id dim_policies)))
       (fail "fact_claims references unknown policy_id") ;;
  when (nonempty (set_difference (map FactClaims.product_key df)
                    (map DimProducts.product_key dim_products)))
       (fail "fact_claims references unknown product_key") ;;
  when (nonempty (set_difference (map FactClaims.state_code df)
                    (map DimState.state_code dim_state)))
       (fail "fact_claims references unknown state_code") ;;
  when (nonempty (set_of (map FactClaims.incident_date_key df)
                  ∖ set_of (map DimTime.date_key dim_time)))
       (fail "fact_claims has invalid incident_date_key") ;;
  when (nonempty (set_of (map FactClaims.report_date_key df)
                  ∖ set_of (map DimTime.date_key dim_time)))
       (fail "fact_claims has invalid report_date_key") ;;
  (* Settlement date intentionally nullable / future-proof *)
  let valid := omap FactClaims.settlement_date_key df in
  let missing := set_of valid ∖ set_of (map DimTime.date_key dim_time) in
  when (nonempty missing)
       (warn (SettlementOutsideDimTime (size missing))).

Definition check_fact_expenses (df : list FactExpenses.row)
    (dim_time : list DimTime.row) (dim_state : list DimState.row)
    : outcome unit :=
  when (nonempty (set_of (map FactExpenses.date_key df)
                  ∖ set_of (map DimTime.date_key dim_time)))
       (fail "fact_expenses has invalid date_key") ;;
  when (nonempty (set_difference (map FactExpenses.state_code df)
                    (map DimState.state_code dim_state)))
       (fail "fact_expenses references unknown state_code") ;;
  when (existsb (fun r => FactExpenses.expense_amount r <? 0)%float df)
       (fail "Negative expense_amount in fact_expenses").

Definition check_fact_taxes (df : list FactTaxes.row)
    (dim_policies : list DimPolicies.row) (dim_state : list DimState.row)
    : outcome unit :=
  when (nonempty (set_difference (map FactTaxes.policy_id df)
                    (map DimPolicies.policy_id dim_policies)))
       (fail "fact_taxes references unknown policy_id") ;;
  when (nonempty (set_difference (map FactTaxes.state_code df)
                    (map DimState.state_code dim_state)))
       (fail "fact_taxes references unknown state_code") ;;
  when (existsb (fun r => FactTaxes.tax_amount r <? 0)%float df)
       (fail "Negative tax_amount in fact_taxes").

(** ** Sanity checks *)

Definition float_of_nat (n : nat) : float :=
  PrimFloat.of_uint63 (Uint63.of_Z (Z.of_nat n)).

#[local] Set Warnings "-inexact-float".
Definition sanity_checks (fact_policies : list FactPolicies.row)
    (fact_claims : list FactClaims.row) : outcome unit :=
  let ratio :=
    (float_of_nat (length fact_claims)
     / float_of_nat (Nat.max (length fact_policies) 1))%float in
  when ((ratio <? 0.03) || (0.80 <? ratio))%float
       (warn (UnusualClaimsPoliciesRatio ratio)).

(** ** main *)

Definition main (s : staged) : outcome unit :=
  check_files s ;;
  dim_time ← load_csv (dim_time_csv s) "dim_time.csv" ;
  dim_state ← load_csv (dim_state_csv s) "dim_state.csv" ;
  dim_clients ← load_csv (dim_clients_csv s) "dim_clients.csv" ;
  dim_products ← load_csv (dim_products_csv s) "dim_products.csv" ;
  dim_policies ← load_csv (dim_policies_csv s) "dim_policies.csv" ;
  fact_policies ← load_csv (fact_policies_csv s) "fact_policies.csv" ;
  fact_claims ← load_csv (fact_claims_csv s) "fact_claims.csv" ;
  fact_expenses ← load_csv (fact_expenses_csv s) "fact_expenses.csv" ;
  fact_taxes ← load_csv (fact_taxes_csv s) "fact_taxes.csv" ;
  check_dim_time dim_time ;;
  check_dim_state dim_state ;;
  check_dim_clients dim_clients dim_state ;;
  check_dim_products dim_products ;;
  check_dim_policies dim_policies dim_clients dim_state ;;
  check_fact_policies fact_policies dim_time dim_policies dim_products dim_state ;;
  check_fact_claims fact_claims dim_policies dim_products dim_state dim_time ;;
  check_fact_expenses fact_expenses dim_time dim_state ;;
  check_fact_taxes fact_taxes dim_policies dim_state ;;
  sanity_checks fact_policies fact_claims.

(** The process exit status. *)
Definition exit_status {A} (o : outcome A) : Z :=
  match o with
  | Fatal _ => 1
  | Passed _ _ => 0
  end.

End Healthcheck.

(* ===================================================================== *)
(** * scripts/09_module_E_loader.py                                       *)
(* ===================================================================== *)

Module Loader.
Import Pandas.

(** The nine tables of the store. *)
Inductive table :=
| dim_time | dim_state | dim_clients | dim_products | dim_policies
| fact_policies | fact_claims | fact_expenses | fact_taxes.

#[global] Instance table_eq_dec : EqDecision table.
Proof. solve_decision. Defined.

Definition all_tables : list table :=
  [dim_time; dim_state; dim_clients; dim_products; dim_policies;
   fact_policies; fact_claims; fact_expenses; fact_taxes].

(** A CSV file: the header and the data rows, as text fields. *)
Record csv := Csv { header : list string; rows : list (list string) }.

(** The content of every table. *)
Definition store := table → list (list string).

(** What the script sends through the cursor.  A COPY carries the column
    list of its SQL text and the file streamed to it. *)
Inductive statement :=
| BEGIN
| TRUNCATE (tables : list table)          (* TRUNCATE .. CASCADE *)
| COPY (t : table) (columns : list string) (data : csv).

(** The effect of a statement the server accepts.  TRUNCATE empties the
    tables it names (CASCADE reaches, beyond them, only tables that
    reference them); COPY .. WITH CSV HEADER appends the data rows. *)
Definition apply (st : statement) (w : store) : store :=
  match st with
  | BEGIN => w
  | TRUNCATE ts => fun t => if decide (t ∈ ts) then [] else w t
  | COPY t _ data => fun t' => if decide (t' = t) then w t ++ rows data else w t'
  end.

(** A psycopg2 connection: the database as committed, the content the open
    transaction sees, and the statements sent so far. *)
Record connection := Connection {
  committed : store;
  working : store;
  sent : list statement;
}.

Inductive exn :=
| MissingCsvFile (t : table)        (* csv_path: RuntimeError("Missing CSV file: ..") *)
| CleaningError                     (* pd.read_csv or df.to_csv raises *)
| DatabaseError (st : statement)    (* the server refuses the statement *)
| CommitError.                      (* conn.commit() raises *)

Inductive failure :=
| MissingDbUrl                      (* RuntimeError("Missing SUPABASE_DB_URL") *)
| ConnectionError                   (* psycopg2.connect raises *)
| LoadFailed (cause : exn).         (* RuntimeError("Module 09 v1 FAILED: ..") *)

(** Code that runs on a connection and may raise. *)
Definition session (A : Type) : Type := connection → result exn A * connection.

#[global] Instance session_ret : MRet session := fun A a c => (Ok a, c).
#[global] Instance session_bind : MBind session := fun A B k m c =>
  match m c with
  | (Ok a, c') => k a c'
  | (Raise e, c') => (Raise e, c')
  end.

(** A cell of a DataFrame, as [pd.read_csv] types it: an int, a float or
    a bool in a column of that dtype, a Python object (text, or a bool
    next to missing cells) in an object column; [VNaN] is a missing
    cell. *)
Inductive value :=
| VInt (n : Z)
| VFloat (x : float)
| VBool (b : bool)
| VStr (s : string)
| VNaN.

(** A DataFrame: the column names and the rows. *)
Record frame := Frame { frame_columns : list string; frame_rows : list (list value) }.

(** [str(x).lower() in ("1", "true", "t", "yes")] after [fillna(0)].
    [str] of an int is its decimal text, which is "1" for 1 only; [str] of
    a float ("1.0", "0.5", "1e-07", "inf") is none of the four tokens;
    [str(True)] is "True"; a missing cell has become 0. *)
Definition truthy (x : value) : bool :=
  match x with
  | VInt n => bool_decide (n = 1)
  | VFloat _ => false
  | VBool b => b
  | VStr s => bool_decide (str_lower s ∈ ["1"; "true"; "t"; "yes"]%string)
  | VNaN => false
  end.

(** [df["fraud_flag"].fillna(0).apply(lambda x: 1 if .. else 0).astype(int)],
    on one cell. *)
Definition fraud_flag_value (x : value) : value := VInt (if truthy x then 1 else 0).

(** The assignment to [df["fraud_flag"]]: the cells of that column are
    coerced, the others stay.  (read_csv never gives two columns of one
    name.) *)
Definition coerce_fraud_flag (df : frame) : frame :=
  Frame (frame_columns df)
        (map (imap (fun i x =>
                      if decide (frame_columns df !! i = Some "fraud_flag"%string)
                      then fraud_flag_value x else x))
             (frame_rows df)).

Section Run.

(** The surroundings of one run: the staged files (output/normalized), and
    the verdict of the server on a statement or on the commit, given the
    content the transaction sees. *)
Variable files : table → option csv.
Variable accepts : statement → store → bool.
Variable commit_accepted : store → bool.
Variable reachable : bool.

(** pandas at work on a file: [pd.read_csv(path)], with the dtypes it
    infers, and [df.to_csv(tmp.name, index=False)], the file it writes;
    [None] when the call raises. *)
Variable read_csv : csv → option frame.
Variable to_csv : frame → option csv.

(** [clean_fact_claims_csv(path)]: the temporary file it returns, [None]
    when it raises. *)
Definition clean_fact_claims_csv (path : csv) : option csv :=
  df ← read_csv path ;
  to_csv (if bool_decide ("fraud_flag"%string ∈ frame_columns df)
          then coerce_fraud_flag df else df).

Definition raising {A} (e : exn) (r : option A) : session A := fun c =>
  match r with
  | Some a => (Ok a, c)
  | None => (Raise e, c)
  end.

Definition connect (db : store) : connection :=
  Connection db db [].

(** [cur.execute(sql)] and [cur.copy_expert(sql, f)]. *)
Definition execute (st : statement) : session unit := fun c =>
  if accepts st (working c)
  then (Ok tt, Connection (committed c) (apply st (working c)) (sent c ++ [st]))
  else (Raise (DatabaseError st), Connection (committed c) (working c) (sent c ++ [st])).

Definition csv_path (t : table) : session csv := fun c =>
  match files t with
  | Some f => (Ok f, c)
  | None => (Raise (MissingCsvFile t), c)
  end.

Definition copy (columns : list string) (t : table) : session unit :=
  path ← csv_path t ;
  (* Special handling ONLY for fact_claims *)
  path ← match t with
         | fact_claims => raising CleaningError (clean_fact_claims_csv path)
         | _ => mret path
         end ;
  execute (COPY t columns path).

Definition commit : session unit := fun c =>
  if commit_accepted (working c)
  then (Ok tt, Connection (working c) (working c) (sent c))
  else (Raise CommitError, c).

Definition rollback (c : connection) : connection :=
  Connection (committed c) (committed c) (sent c).

(** The body of the [try] block. *)
Definition load : session unit :=
  execute BEGIN ;;
  execute (TRUNCATE [fact_claims; fact_expenses; fact_taxes; fact_policies]) ;;
  execute (TRUNCATE [dim_policies; dim_products; dim_clients; dim_state; dim_time]) ;;
  copy ["date_key"; "full_date"; "year"; "month"; "month_name";
        "quarter"; "year_month"; "day_of_week"; "is_weekend"]%string dim_time ;;
  copy ["state_code"; "region_code"; "market_tier"]%string dim_state ;;
  copy ["client_id"; "registration_year"; "age"; "gender";
        "customer_segment"; "state_code"; "region_code";
        "market_tier"; "max_policies_allowed"]%string dim_clients ;;
  copy ["product_key"; "line_of_business"; "plan_name"]%string dim_products ;;
  copy ["policy_id"; "policy_number"; "client_id";
        "state_code"; "region_code"; "is_renewal"]%string dim_policies ;;
  copy ["policy_id"; "product_key"; "state_code"; "region_code";
        "effective_date_key"; "expiration_date_key";
        "policy_year"; "policy_month"; "status";
        "risk_score"; "monthly_premium"; "annual_premium"]%string fact_policies ;;
  copy ["claim_id"; "policy_id"; "product_key"; "line_of_business";
        "state_code"; "region_code"; "claim_type"; "claim_status";
        "fraud_flag"; "incident_date_key"; "report_date_key";
        "settlement_date_key"; "days_to_settle";
        "claim_amount_requested"; "claim_amount_approved";
        "claim_amount_paid"]%string fact_claims ;;
  copy ["expense_id"; "expense_category"; "state_code";
        "region_code"; "date_key"; "expense_amount"]%string fact_expenses ;;
  copy ["tax_id"; "policy_id"; "tax_type"; "state_code";
        "date_key"; "tax_base"; "tax_rate"; "tax_amount"]%string fact_taxes ;;
  commit.

(** [run()]: what it returns or raises, the connection as it is when the
    [finally] block closes it. *)
Definition run_session (db : store) : result failure unit * connection :=
  match load (connect db) with
  | (Ok _, c) => (Ok tt, c)
  | (Raise e, c) => (Raise (LoadFailed e), rollback c)
  end.

(** [not DB_URL]: the variable is not set, or is the empty string. *)
Definition missing_url (db_url : option string) : bool :=
  match db_url with
  | None => true
  | Some url => bool_decide (url = EmptyString)
  end.

(** The script: the environment test at import, the connection, [run()].
    The second component is the database once the connection is closed. *)
Definition module_09 (db_url : option string) (db : store)
    : result failure unit * store :=
  if missing_url db_url then (Raise MissingDbUrl, db)
  else if reachable
       then let (r, c) := run_session db in (r, committed c)
       else (Raise ConnectionError, db).

End Run.

(** The tables truncated, in the order the statements name them, and the
    tables loaded, in order. *)
Definition truncation_order (log : list statement) : list table :=
  flat_map (fun st => match st with TRUNCATE ts => ts | _ => [] end) log.

Definition load_order (log : list statement) : list table :=
  flat_map (fun st => match st with COPY t _ _ => [t] | _ => [] end) log.

Definition is_dimension (t : table) : bool :=
  match t with
  | dim_time | dim_state | dim_clients | dim_products | dim_policies => true
  | _ => false
  end.

Definition row_count (db : store) (t : table) : nat := length (db t).

End Loader.

(* ===================================================================== *)
(** * Notions the properties are stated with                              *)
(* ===================================================================== *)

Module Notions.
Import Calendar Pandas Normalizer.


(** ** Time dimension *)

(** The cells of the four date columns the time dimension is built from:
    policy effective and expiration dates, claim incident and report
    dates. *)
Definition observed_dates
    (policies : list RawPolicies.row) (claims : list RawClaims.row)
    : list (option date) :=
  map RawPolicies.effective_date policies
  ++ map RawPolicies.expiration_date policies
  ++ map RawClaims.incident_date claims
  ++ map RawClaims.report_date claims.

(** [dim] has exactly one row per calendar day from the least to the
    greatest observed date, in order, and its keys are pairwise
    distinct. *)
Definition covers_observed_range
    (policies : list RawPolicies.row) (claims : list RawClaims.row)
    (dim : list DimTime.row) : Prop :=
  exists lo hi,
    Some lo ∈ observed_dates policies claims
    /\ Some hi ∈ observed_dates policies claims
    /\ (forall d, Some d ∈ observed_dates policies claims -> lo <= d <= hi)
    /\ map DimTime.full_date dim = map civil_of (date_range lo hi)
    /\ map DimTime.date_key dim = map date_key (date_range lo hi)
    /\ length dim = Z.to_nat (hi - lo + 1)
    /\ NoDup (map DimTime.date_key dim).

(** Every date cell of the four columns parses. *)
Definition all_dates_parse
    (policies : list RawPolicies.row) (claims : list RawClaims.row) : Prop :=
  forall x, x ∈ observed_dates policies claims -> x <> None.

(** The three builders return, and every date key of the two fact tables
    is a [date_key] of the time dimension. *)
Definition date_keys_resolve
    (policies : list RawPolicies.row) (claims : list RawClaims.row) : Prop :=
  exists dim fp fc,
    build_dim_time policies claims = Ok dim
    /\ build_fact_policies policies = Ok fp
    /\ build_fact_claims claims policies = Ok fc
    /\ (forall r, r ∈ fp ->
          FactPolicies.effective_date_key r ∈ map DimTime.date_key dim
          /\ FactPolicies.expiration_date_key r ∈ map DimTime.date_key dim)
    /\ (forall r, r ∈ fc ->
          FactClaims.incident_date_key r ∈ map DimTime.date_key dim
          /\ FactClaims.report_date_key r ∈ map DimTime.date_key dim).

(** ** Product key *)

Fixpoint has_char (c : ascii) (s : string) : bool :=
  match s with
  | EmptyString => false
  | String c' s' => Ascii.eqb c' c || has_char c s'
  end.

(** Text of ASCII characters only, where [str_upper] is Python's. *)
Fixpoint ascii_text (s : string) : bool :=
  match s with
  | EmptyString => true
  | String c s' => (N_of_ascii c <? 128)%N && ascii_text s'
  end.

(** What the key keeps of a component: upper case, spaces as
    underscores. *)
Definition key_form (s : string) : string := str_replace_space (str_upper s).

(** ** State dimension *)

(** Clients of one state all carry the same region and market tier. *)
Definition state_determines_region (clients : list RawClients.row) : Prop :=
  forall c1 c2, c1 ∈ clients -> c2 ∈ clients ->
    RawClients.state_code c1 = RawClients.state_code c2 ->
    RawClients.region_code c1 = RawClients.region_code c2
    /\ RawClients.market_tier c1 = RawClients.market_tier c2.

(** ** Claim facts *)



(** ** Validator *)

Definition rows_of {A} (file : option (list A)) : list A := default [] file.

(** Some value of the fact column is absent from the dimension column. *)
Definition unresolved {K} (fact_col dim_col : list K) : Prop :=
  exists k, k ∈ fact_col /\ k ∉ dim_col.

(** Every cell of a column of text keys is missing: pandas reads the
    column as float64. *)
Definition all_missing (col : list cell) : Prop := forall k, k ∈ col -> k = None.

(** Some text key of the fact column is not found in the dimension
    column: a text that is not there, or a missing key, which is found
    only as the np.nan of a dimension column that holds some text, and
    only when the fact column holds some text as well. *)
Definition unresolved_text (fact_col dim_col : list cell) : Prop :=
  exists k, k ∈ fact_col
    /\ (k ∉ dim_col
        \/ (k = None /\ (all_missing fact_col \/ all_missing dim_col))).

(** The number of distinct values of the fact column absent from the
    dimension column. *)
Definition unresolved_count {K} `{EqDecision K} (fact_col dim_col : list K) : nat :=
  length (remove_dups (filter (fun k => k ∉ dim_col) fact_col)).

(** Some primary foreign key of some staged fact table does not
    resolve. *)
Definition primary_key_unresolved (s : Healthcheck.staged) : Prop :=
  let dim_time := map DimTime.date_key (rows_of (Healthcheck.dim_time_csv s)) in
  let dim_state := map DimState.state_code (rows_of (Healthcheck.dim_state_csv s)) in
  let dim_products :=
    map DimProducts.product_key (rows_of (Healthcheck.dim_products_csv s)) in
  let dim_policies :=
    map DimPolicies.policy_id (rows_of (Healthcheck.dim_policies_csv s)) in
  let fp := rows_of (Healthcheck.fact_policies_csv s) in
  let fc := rows_of (Healthcheck.fact_claims_csv s) in
  let fe := rows_of (Healthcheck.fact_expenses_csv s) in
  let ft := rows_of (Healthcheck.fact_taxes_csv s) in
  unresolved_text (map FactPolicies.policy_id fp) dim_policies
  \/ unresolved_text (map FactPolicies.product_key fp) dim_products
  \/ unresolved_text (map FactPolicies.state_code fp) dim_state
  \/ unresolved (map FactPolicies.effective_date_key fp) dim_time
  \/ unresolved_text (map FactClaims.policy_id fc) dim_policies
  \/ unresolved_text (map FactClaims.product_key fc) dim_products
  \/ unresolved_text (map FactClaims.state_code fc) dim_state
  \/ unresolved (map FactClaims.incident_date_key fc) dim_time
  \/ unresolved (map FactClaims.report_date_key fc) dim_time
  \/ unresolved (map FactExpenses.date_key fe) dim_time
  \/ unresolved_text (map FactExpenses.state_code fe) dim_state
  \/ unresolved_text (map FactTaxes.policy_id ft) dim_policies
  \/ unresolved_text (map FactTaxes.state_code ft) dim_state.

(** The same staged tables with other values in the two secondary date
    key columns. *)
Definition set_expiration (f : FactPolicies.row → Z) (r : FactPolicies.row)
    : FactPolicies.row :=
  {| FactPolicies.policy_id := FactPolicies.policy_id r;
     FactPolicies.product_key := FactPolicies.product_key r;
     FactPolicies.state_code := FactPolicies.state_code r;
     FactPolicies.region_code := FactPolicies.region_code r;
     FactPolicies.effective_date_key := FactPolicies.effective_date_key r;
     FactPolicies.expiration_date_key := f r;
     FactPolicies.policy_year := FactPolicies.policy_year r;
     FactPolicies.policy_month := FactPolicies.policy_month r;
     FactPolicies.status := FactPolicies.status r;
     FactPolicies.risk_score := FactPolicies.risk_score r;
     FactPolicies.monthly_premium := FactPolicies.monthly_premium r;
     FactPolicies.annual_premium := FactPolicies.annual_premium r |}.

Definition set_settlement (g : FactClaims.row → option Z) (r : FactClaims.row)
    : FactClaims.row :=
  {| FactClaims.claim_id := FactClaims.claim_id r;
     FactClaims.policy_id := FactClaims.policy_id r;
     FactClaims.product_key := FactClaims.product_key r;
     FactClaims.line_of_business := FactClaims.line_of_business r;
     FactClaims.state_code := FactClaims.state_code r;
     FactClaims.region_code := FactClaims.region_code r;
     FactClaims.claim_type := FactClaims.claim_type r;
     FactClaims.claim_status := FactClaims.claim_status r;
     FactClaims.fraud_flag := FactClaims.fraud_flag r;
     FactClaims.incident_date_key := FactClaims.incident_date_key r;
     FactClaims.report_date_key := FactClaims.report_date_key r;
     FactClaims.settlement_date_key := g r;
     FactClaims.days_to_settle := FactClaims.days_to_settle r;
     FactClaims.claim_amount_requested := FactClaims.claim_amount_requested r;
     FactClaims.claim_amount_approved := FactClaims.claim_amount_approved r;
     FactClaims.claim_amount_paid := FactClaims.claim_amount_paid r |}.

Definition with_secondary_keys
    (f : FactPolicies.row → Z) (g : FactClaims.row → option Z)
    (s : Healthcheck.staged) : Healthcheck.staged :=
  {| Healthcheck.dim_time_csv := Healthcheck.dim_time_csv s;
     Healthcheck.dim_state_csv := Healthcheck.dim_state_csv s;
     Healthcheck.dim_clients_csv := Healthcheck.dim_clients_csv s;
     Healthcheck.dim_products_csv := Healthcheck.dim_products_csv s;
     Healthcheck.dim_policies_csv := Healthcheck.dim_policies_csv s;
     Healthcheck.fact_policies_csv :=
       map (set_expiration f) <$> Healthcheck.fact_policies_csv s;
     Healthcheck.fact_claims_csv :=
       map (set_settlement g) <$> Healthcheck.fact_claims_csv s;
     Healthcheck.fact_expenses_csv := Healthcheck.fact_expenses_csv s;
     Healthcheck.fact_taxes_csv := Healthcheck.fact_taxes_csv s |}.

(** The message of the fatal failure, if the run ends in one. *)
Definition verdict {A} (o : Healthcheck.outcome A) : option string :=
  match o with
  | Healthcheck.Fatal msg => Some msg
  | Healthcheck.Passed _ _ => None
  end.

(** The warnings a passing run prints for the two secondary keys and for
    the claims-to-policies ratio. *)
Definition expiration_warning (s : Healthcheck.staged) : list Healthcheck.warning :=
  let n :=
    unresolved_count
      (map FactPolicies.expiration_date_key (rows_of (Healthcheck.fact_policies_csv s)))
      (map DimTime.date_key (rows_of (Healthcheck.dim_time_csv s))) in
  if decide (n = 0%nat) then [] else [Healthcheck.ExpirationOutsideDimTime n].

Definition settlement_warning (s : Healthcheck.staged) : list Healthcheck.warning :=
  let n :=
    unresolved_count
      (omap FactClaims.settlement_date_key (rows_of (Healthcheck.fact_claims_csv s)))
      (map DimTime.date_key (rows_of (Healthcheck.dim_time_csv s))) in
  if decide (n = 0%nat) then [] else [Healthcheck.SettlementOutsideDimTime n].


(** The checks of [main] once the nine tables are loaded. *)
Definition all_checks dim_time dim_state dim_clients dim_products dim_policies
    fact_policies fact_claims fact_expenses fact_taxes : Healthcheck.outcome unit :=
  Healthcheck.check_dim_time dim_time ;;
  Healthcheck.check_dim_state dim_state ;;
  Healthcheck.check_dim_clients dim_clients dim_state ;;
  Healthcheck.check_dim_products dim_products ;;
  Healthcheck.check_dim_policies dim_policies dim_clients dim_state ;;
  Healthcheck.check_fact_policies fact_policies dim_time dim_policies
    dim_products dim_state ;;
  Healthcheck.check_fact_claims fact_claims dim_policies dim_products
    dim_state dim_time ;;
  Healthcheck.check_fact_expenses fact_expenses dim_time dim_state ;;
  Healthcheck.check_fact_taxes fact_taxes dim_policies dim_state ;;
  Healthcheck.sanity_checks fact_policies fact_claims.

(** [load_csv] on a file that exists, then the rest of the run. *)
Definition loaded {A} (name : string) (df : list A)
    (k : Healthcheck.outcome unit) : Healthcheck.outcome unit :=
  match df with
  | [] => Healthcheck.Fatal (name +:+ " is empty")
  | _ => k
  end.

(** Some fact check is fatal. *)
Definition fact_violation dt ds dpr dp
    (fp : list FactPolicies.row) (fc : list FactClaims.row)
    (fe : list FactExpenses.row) (ft : list FactTaxes.row) : Prop :=
  is_Some (verdict (Healthcheck.check_fact_policies fp dt dp dpr ds))
  \/ is_Some (verdict (Healthcheck.check_fact_claims fc dp dpr ds dt))
  \/ is_Some (verdict (Healthcheck.check_fact_expenses fe dt ds))
  \/ is_Some (verdict (Healthcheck.check_fact_taxes ft dp ds)).


(** ** Loader *)

(** The file streamed to the COPY of table [t]: the staged file, for
    fact_claims the file the cleaning wrote. *)
Definition streamed (files : Loader.table → option Loader.csv)
    (read_csv : Loader.csv → option Loader.frame)
    (to_csv : Loader.frame → option Loader.csv)
    (t : Loader.table) : option Loader.csv :=
  f ← files t ;
  if decide (t = Loader.fact_claims)
  then Loader.clean_fact_claims_csv read_csv to_csv f else Some f.

(** The step behind the exception [e] of a run that stopped in the
    connection state [c]: a staged file that is missing, the cleaning of
    the staged fact_claims file, the last statement sent, refused by the
    server, or the commit, refused. *)
Definition raised_by
    (files : Loader.table → option Loader.csv)
    (accepts : Loader.statement → Loader.store → bool)
    (commit_accepted : Loader.store → bool)
    (read_csv : Loader.csv → option Loader.frame)
    (to_csv : Loader.frame → option Loader.csv)
    (e : Loader.exn) (c : Loader.connection) : Prop :=
  match e with
  | Loader.MissingCsvFile t => files t = None
  | Loader.CleaningError =>
      exists f, files Loader.fact_claims = Some f
                /\ Loader.clean_fact_claims_csv read_csv to_csv f = None
  | Loader.DatabaseError st =>
      last (Loader.sent c) = Some st
      /\ accepts st (Loader.working c) = false
  | Loader.CommitError => commit_accepted (Loader.working c) = false
  end.

(** ** Further notions: builders *)

(** [x] is the first row of [l] with its key. *)
Definition first_with_key {A K} (key : A → K) (l : list A) (x : A) : Prop :=
  exists i, l !! i = Some x
    /\ forall j y, (j < i)%nat -> l !! j = Some y -> key y <> key x.

(** The derived columns of a time row agree with its day. *)
Definition time_row_consistent (r : DimTime.row) : Prop :=
  valid_civil (DimTime.full_date r)
  /\ DimTime.year r = cyear (DimTime.full_date r)
  /\ DimTime.month r = cmonth (DimTime.full_date r)
  /\ DimTime.date_key r
     = DimTime.year r * 10000 + DimTime.month r * 100 + cday (DimTime.full_date r)
  /\ 1 <= DimTime.quarter r <= 4
  /\ 3 * DimTime.quarter r - 2 <= DimTime.month r <= 3 * DimTime.quarter r
  /\ DimTime.month_name r = month_name (DimTime.month r)
  /\ 1 <= DimTime.day_of_week r <= 7
  /\ (DimTime.is_weekend r = true <-> 6 <= DimTime.day_of_week r).

(** Each row is the day after the row before it. *)
Definition one_day_per_row (dim : list DimTime.row) : Prop :=
  forall i r r', dim !! i = Some r -> dim !! S i = Some r' ->
    DimTime.date_key r < DimTime.date_key r'
    /\ DimTime.full_date r' = next_day (DimTime.full_date r)
    /\ DimTime.day_of_week r' = DimTime.day_of_week r mod 7 + 1.



(** ** Further notions: validator *)

(** The staged files in the order [main] loads them: the name, and the
    number of rows of a file that is there. *)
Definition staged_sizes (s : Healthcheck.staged) : list (string * option nat) :=
  [("dim_time.csv", length <$> Healthcheck.dim_time_csv s);
   ("dim_state.csv", length <$> Healthcheck.dim_state_csv s);
   ("dim_clients.csv", length <$> Healthcheck.dim_clients_csv s);
   ("dim_products.csv", length <$> Healthcheck.dim_products_csv s);
   ("dim_policies.csv", length <$> Healthcheck.dim_policies_csv s);
   ("fact_policies.csv", length <$> Healthcheck.fact_policies_csv s);
   ("fact_claims.csv", length <$> Healthcheck.fact_claims_csv s);
   ("fact_expenses.csv", length <$> Healthcheck.fact_expenses_csv s);
   ("fact_taxes.csv", length <$> Healthcheck.fact_taxes_csv s)]%string.


(** ** Further notions: loader *)

(** The columns of the staged file of a table, as its builder returns
    them. *)
Definition staged_columns (t : Loader.table) : list string :=
  match t with
  | Loader.dim_time => dim_time_columns
  | Loader.dim_state => dim_state_columns
  | Loader.dim_clients => dim_clients_columns
  | Loader.dim_products => dim_products_columns
  | Loader.dim_policies => dim_policies_columns
  | Loader.fact_policies => fact_policies_columns
  | Loader.fact_claims => fact_claims_columns
  | Loader.fact_expenses => fact_expenses_columns
  | Loader.fact_taxes => fact_taxes_columns
  end.

End Notions.

(* ===================================================================== *)
(** * Sample data                                                         *)
(* ===================================================================== *)

Module Examples.
Import Calendar Pandas.
Local Open Scope string_scope.

Definition client (id state region tier : string) : RawClients.row :=
  {| RawClients.client_id := Some id;
     RawClients.registration_year := Some "2024";
     RawClients.age := Some "41";
     RawClients.gender := Some "F";
     RawClients.customer_segment := Some "Retail";
     RawClients.state_code := Some state;
     RawClients.region_code := Some region;
     RawClients.market_tier := Some tier;
     RawClients.max_policies_allowed := Some "3" |}.

Definition policy (id lob plan : string) (eff exp : option date)
    : RawPolicies.row :=
  {| RawPolicies.policy_id := Some id;
     RawPolicies.policy_number := Some ("PN-" +:+ id);
     RawPolicies.client_id := Some "C1";
     RawPolicies.state_code := Some "NY";
     RawPolicies.region_code := Some "NE";
     RawPolicies.is_renewal := Some "False";
     RawPolicies.line_of_business := Some lob;
     RawPolicies.plan_name := Some plan;
     RawPolicies.effective_date := eff;
     RawPolicies.expiration_date := exp;
     RawPolicies.status := Some "Active";
     RawPolicies.risk_score := Some "0.42";
     RawPolicies.monthly_premium := Some "340.0";
     RawPolicies.annual_premium := Some "4080.0" |}.

Definition claim (id policy_id : string) (inc rep : option date)
    : RawClaims.row :=
  {| RawClaims.claim_id := Some id;
     RawClaims.policy_id := Some policy_id;
     RawClaims.incident_date := inc;
     RawClaims.report_date := rep;
     RawClaims.claim_type := Some "Collision";
     RawClaims.claim_status := Some "Paid";
     RawClaims.fraud_flag := Some false;
     RawClaims.claim_amount_requested := Some "1200.0";
     RawClaims.claim_amount_approved := Some "1000.0";
     RawClaims.claim_amount_paid := Some "1000.0" |}.

(** A policy whose effective date does not parse, with a good expiration
    date, and a claim with good dates. *)
Definition policies_bad_effective : list RawPolicies.row :=
  [policy "P1" "Auto" "Full" None (Some (ymd 2024 6 30))].

Definition claims_june : list RawClaims.row :=
  [claim "K1" "P1" (Some (ymd 2024 6 10)) (Some (ymd 2024 6 12))].

(** Tables without a single date that parses. *)
Definition policies_no_dates : list RawPolicies.row :=
  [policy "P1" "Auto" "Full" None None].

Definition claims_no_dates : list RawClaims.row :=
  [claim "K1" "P1" None None].

(** Two policies of June 2024 and a claim on the first. *)
Definition policies_june : list RawPolicies.row :=
  [policy "P1" "Auto" "Full" (Some (ymd 2024 6 1)) (Some (ymd 2024 6 30));
   policy "P2" "Health" "Gold" (Some (ymd 2024 6 5)) (Some (ymd 2024 6 20))].

(** A claim whose policy is not in the policy table. *)
Definition claims_orphan : list RawClaims.row :=
  [claim "K1" "P1" (Some (ymd 2024 6 10)) (Some (ymd 2024 6 12));
   claim "K2" "P9" (Some (ymd 2024 6 15)) (Some (ymd 2024 6 16))].


(** Two clients of one state filed under two regions. *)
Definition clients_two_regions : list RawClients.row :=
  [client "C1" "CA" "W" "Tier 1"; client "C2" "CA" "SW" "Tier 1"].

Definition clients_one_state : list RawClients.row :=
  [client "C1" "NY" "NE" "Tier 1"; client "C2" "NY" "NE" "Tier 1"].

(** The staged tables of a small run: two policies and one claim in the
    first days of June 2024, one expense, one tax. *)
Definition policies_week : list RawPolicies.row :=
  [policy "P1" "Auto" "Full" (Some (ymd 2024 6 1)) (Some (ymd 2024 6 5));
   policy "P2" "Auto" "Full" (Some (ymd 2024 6 2)) (Some (ymd 2024 6 4))].

Definition claims_week : list RawClaims.row :=
  [claim "K1" "P1" (Some (ymd 2024 6 3)) (Some (ymd 2024 6 4))].

Definition rows_or_nil {E A} (r : result E (list A)) : list A :=
  match r with
  | Ok l => l
  | Raise _ => []
  end.

Definition dim_client (id : string) : DimClients.row :=
  {| DimClients.client_id := Some id;
     DimClients.registration_year := Some "2024";
     DimClients.age := Some "41";
     DimClients.gender := Some "F";
     DimClients.customer_segment := Some "Retail";
     DimClients.state_code := Some "NY";
     DimClients.region_code := Some "NE";
     DimClients.market_tier := Some "Tier 1";
     DimClients.max_policies_allowed := Some "3" |}.

Definition dim_policy (id : string) : DimPolicies.row :=
  {| DimPolicies.policy_id := Some id;
     DimPolicies.policy_number := Some ("PN-" +:+ id);
     DimPolicies.client_id := Some "C1";
     DimPolicies.state_code := Some "NY";
     DimPolicies.region_code := Some "NE";
     DimPolicies.is_renewal := Some "False" |}.

Definition expense (id : string) (amount : float) : FactExpenses.row :=
  {| FactExpenses.expense_id := Some id;
     FactExpenses.expense_category := Some "Marketing";
     FactExpenses.state_code := Some "NY";
     FactExpenses.region_code := Some "NE";
     FactExpenses.date_key := month_start_key (ymd 2024 6 17);
     FactExpenses.expense_amount := amount |}.

Definition tax (id policy_id : string) (amount : float) : FactTaxes.row :=
  {| FactTaxes.tax_id := Some id;
     FactTaxes.policy_id := Some policy_id;
     FactTaxes.tax_type := Some "PREMIUM_TAX";
     FactTaxes.state_code := Some "NY";
     FactTaxes.date_key := None;
     FactTaxes.tax_base := 4080;
     FactTaxes.tax_rate := 0.5;
     FactTaxes.tax_amount := amount |}.

Definition staged_week : Healthcheck.staged :=
  {| Healthcheck.dim_time_csv :=
       Some (rows_or_nil (Normalizer.build_dim_time policies_week claims_week));
     Healthcheck.dim_state_csv :=
       Some (Normalizer.build_dim_state [client "C1" "NY" "NE" "Tier 1"]);
     Healthcheck.dim_clients_csv := Some [dim_client "C1"];
     Healthcheck.dim_products_csv :=
       Some (Normalizer.build_dim_products policies_week);
     Healthcheck.dim_policies_csv := Some [dim_policy "P1"; dim_policy "P2"];
     Healthcheck.fact_policies_csv :=
       Some (rows_or_nil (Normalizer.build_fact_policies policies_week));
     Healthcheck.fact_claims_csv :=
       Some (rows_or_nil (Normalizer.build_fact_claims claims_week policies_week));
     Healthcheck.fact_expenses_csv := Some [expense "E1" 120.5];
     Healthcheck.fact_taxes_csv := Some [tax "T1" "P1" 2040] |}.

(** The same with an expense of -10. *)
Definition staged_negative_expense : Healthcheck.staged :=
  {| Healthcheck.dim_time_csv := Healthcheck.dim_time_csv staged_week;
     Healthcheck.dim_state_csv := Healthcheck.dim_state_csv staged_week;
     Healthcheck.dim_clients_csv := Healthcheck.dim_clients_csv staged_week;
     Healthcheck.dim_products_csv := Healthcheck.dim_products_csv staged_week;
     Healthcheck.dim_policies_csv := Healthcheck.dim_policies_csv staged_week;
     Healthcheck.fact_policies_csv := Healthcheck.fact_policies_csv staged_week;
     Healthcheck.fact_claims_csv := Healthcheck.fact_claims_csv staged_week;
     Healthcheck.fact_expenses_csv := Some [expense "E1" 120.5; expense "E2" (-10)];
     Healthcheck.fact_taxes_csv := Healthcheck.fact_taxes_csv staged_week |}.

(** The same with a claim on a policy that is not in the policy table. *)
Definition staged_orphan_claim : Healthcheck.staged :=
  {| Healthcheck.dim_time_csv := Healthcheck.dim_time_csv staged_week;
     Healthcheck.dim_state_csv := Healthcheck.dim_state_csv staged_week;
     Healthcheck.dim_clients_csv := Healthcheck.dim_clients_csv staged_week;
     Healthcheck.dim_products_csv := Healthcheck.dim_products_csv staged_week;
     Healthcheck.dim_policies_csv := Healthcheck.dim_policies_csv staged_week;
     Healthcheck.fact_policies_csv := Healthcheck.fact_policies_csv staged_week;
     Healthcheck.fact_claims_csv :=
       Some (rows_or_nil
               (Normalizer.build_fact_claims
                  [claim "K1" "P9" (Some (ymd 2024 6 3)) (Some (ymd 2024 6 4))]
                  policies_week));
     Healthcheck.fact_expenses_csv := Healthcheck.fact_expenses_csv staged_week;
     Healthcheck.fact_taxes_csv := Healthcheck.fact_taxes_csv staged_week |}.

(** Staged files for the loader, a database with one old row per table,
    and two servers: one that accepts every statement, one that refuses
    the COPY into fact_claims. *)
Definition sample_csv (t : Loader.table) : Loader.csv :=
  match t with
  | Loader.fact_claims =>
      Loader.Csv ["claim_id"; "policy_id"; "fraud_flag"]
                 [["K1"; "P1"; "yes"]; ["K2"; "P1"; EmptyString]]
  | _ => Loader.Csv ["id"] [["1"]; ["2"]]
  end.

Definition sample_files (t : Loader.table) : option Loader.csv :=
  Some (sample_csv t).

(** pandas on files of text: [read_csv] keeps a cell as text and reads an
    empty cell as missing; [to_csv] writes an int in decimal, text as it
    is and a missing cell empty.  (The sample writer refuses floats.) *)
Definition text_read_csv (f : Loader.csv) : option Loader.frame :=
  Some (Loader.Frame (Loader.header f)
          (map (map (fun x => if decide (x = EmptyString)
                              then Loader.VNaN else Loader.VStr x))
               (Loader.rows f))).

Definition text_of_value (x : Loader.value) : option string :=
  match x with
  | Loader.VInt n => Some (pretty n)
  | Loader.VFloat _ => None
  | Loader.VBool b => Some (if b then "True" else "False")
  | Loader.VStr s => Some s
  | Loader.VNaN => Some EmptyString
  end.

Definition text_to_csv (df : Loader.frame) : option Loader.csv :=
  Loader.Csv (Loader.frame_columns df)
    <$> mapM (mapM text_of_value) (Loader.frame_rows df).

Definition db_old : Loader.store := fun _ => [["old"]].

Definition accept_all (st : Loader.statement) (w : Loader.store) : bool := true.

Definition refuse_fact_claims (st : Loader.statement) (w : Loader.store) : bool :=
  match st with
  | Loader.COPY Loader.fact_claims _ _ => false
  | _ => true
  end.

(** A policy that starts on the fifth of June, and an expense of that
    month. *)
Definition policies_mid_june : list RawPolicies.row :=
  [policy "P1" "Auto" "Full" (Some (ymd 2024 6 5)) (Some (ymd 2024 6 8))].

Definition raw_expense (id : string) (month : option date) (amount : float)
    : RawExpenses.row :=
  {| RawExpenses.expense_id := Some id;
     RawExpenses.expense_category := Some "Marketing";
     RawExpenses.state_code := Some "NY";
     RawExpenses.region_code := Some "NE";
     RawExpenses.expense_month := month;
     RawExpenses.expense_amount := amount |}.

Definition expenses_june : list RawExpenses.row :=
  [raw_expense "E1" (Some (ymd 2024 6 4)) 120.5].

End Examples.

(* ===================================================================== *)
(** * Properties of the calendar                                          *)
(* ===================================================================== *)

Section CalendarFacts.
Import Calendar.

Lemma days_in_month_bounds y m : 28 <= days_in_month y m <= 31.
Proof.
  unfold days_in_month.
  destruct (m =? 2); [destruct (is_leap y); lia|].
  destruct ((m =? 4) || (m =? 6) || (m =? 9) || (m =? 11)); lia.
Qed.

Lemma next_day_valid c : valid_civil c -> valid_civil (next_day c).
Proof.
  intros [Hm Hd]. unfold next_day, valid_civil.
  destruct (Z.ltb_spec (cday c) (days_in_month (cyear c) (cmonth c))); simpl.
  - lia.
  - destruct (Z.ltb_spec (cmonth c) 12); simpl.
    + pose proof (days_in_month_bounds (cyear c) (cmonth c + 1)). lia.
    + pose proof (days_in_month_bounds (cyear c + 1) 1). lia.
Qed.

Lemma next_day_key c : valid_civil c -> civil_key c < civil_key (next_day c).
Proof.
  intros [Hm Hd]. unfold next_day, civil_key.
  pose proof (days_in_month_bounds (cyear c) (cmonth c)).
  destruct (Z.ltb_spec (cday c) (days_in_month (cyear c) (cmonth c))); simpl.
  - lia.
  - destruct (Z.ltb_spec (cmonth c) 12); simpl; lia.
Qed.

Lemma prev_day_valid c : valid_civil c -> valid_civil (prev_day c).
Proof.
  intros [Hm Hd]. unfold prev_day, valid_civil.
  destruct (Z.ltb_spec 1 (cday c)); simpl.
  - lia.
  - destruct (Z.ltb_spec 1 (cmonth c)); simpl.
    + pose proof (days_in_month_bounds (cyear c) (cmonth c - 1)). lia.
    + change (days_in_month (cyear c - 1) 12) with 31. lia.
Qed.

Lemma next_prev_day c : valid_civil c -> next_day (prev_day c) = c.
Proof.
  destruct c as [y m d]. intros [Hm Hd]. simpl in *. unfold prev_day, next_day. simpl.
  destruct (Z.ltb_spec 1 d); simpl.
  - destruct (Z.ltb_spec (d - 1) (days_in_month y m)); [f_equal; lia|lia].
  - destruct (Z.ltb_spec 1 m); simpl.
    + rewrite Z.ltb_irrefl.
      destruct (Z.ltb_spec (m - 1) 12); [f_equal; lia|lia].
    + change (days_in_month (y - 1) 12) with 31. simpl. f_equal; lia.
Qed.

Lemma epoch_valid : valid_civil epoch.
Proof. unfold valid_civil. simpl. unfold days_in_month. simpl. lia. Qed.

Lemma civil_of_valid d : valid_civil (civil_of d).
Proof.
  destruct d as [|p|p]; simpl.
  - apply epoch_valid.
  - apply Pos.iter_invariant; [intros; by apply next_day_valid|apply epoch_valid].
  - apply Pos.iter_invariant; [intros; by apply prev_day_valid|apply epoch_valid].
Qed.

Lemma civil_of_succ d : civil_of (d + 1) = next_day (civil_of d).
Proof.
  destruct d as [|p|p].
  - reflexivity.
  - change (Z.pos p + 1) with (Z.pos (p + 1)). simpl.
    rewrite Pos.add_1_r. apply Pos.iter_succ.
  - destruct p as [| q] using Pos.peano_ind.
    + reflexivity.
    + replace (Z.neg (Pos.succ q) + 1) with (Z.neg q) by lia.
      simpl. rewrite Pos.iter_succ. symmetry. apply next_prev_day.
      apply (civil_of_valid (Z.neg q)).
Qed.

Lemma date_key_succ d : date_key d < date_key (d + 1).
Proof.
  unfold date_key. rewrite civil_of_succ.
  apply next_day_key, civil_of_valid.
Qed.

(** The key grows with the day. *)
Lemma date_key_lt a b : a < b -> date_key a < date_key b.
Proof.
  intros Hab. replace b with (a + 1 + Z.of_nat (Z.to_nat (b - a - 1))) by lia.
  induction (Z.to_nat (b - a - 1)) as [|n IH].
  - rewrite Z.add_0_r. apply date_key_succ.
  - rewrite Nat2Z.inj_succ.
    replace (a + 1 + Z.succ (Z.of_nat n)) with (a + 1 + Z.of_nat n + 1) by lia.
    pose proof (date_key_succ (a + 1 + Z.of_nat n)). lia.
Qed.

Lemma date_key_le a b : a <= b -> date_key a <= date_key b.
Proof.
  intros Hab. destruct (decide (a = b)) as [->|Hne]; [lia|].
  assert (date_key a < date_key b) by (apply date_key_lt; lia). lia.
Qed.

#[global] Instance date_key_inj : Inj (=) (=) date_key.
Proof.
  intros a b Hk.
  destruct (Z.lt_trichotomy a b) as [Hlt|[Heq|Hgt]]; [|done|].
  - apply date_key_lt in Hlt. lia.
  - apply date_key_lt in Hgt. lia.
Qed.

Lemma date_range_length a b :
  length (date_range a b) = Z.to_nat (b + 1 - a).
Proof. unfold date_range. by rewrite length_map, length_seq. Qed.

Lemma date_range_lookup a b i :
  (i < Z.to_nat (b + 1 - a))%nat ->
  date_range a b !! i = Some (a + Z.of_nat i).
Proof.
  intros Hi. unfold date_range.
  rewrite list_lookup_fmap, lookup_seq_lt by done. done.
Qed.

Lemma elem_of_date_range a b d :
  d ∈ date_range a b <-> (a <= d <= b).
Proof.
  unfold date_range. rewrite list_elem_of_fmap. split.
  - intros (i & -> & Hi). apply elem_of_seq in Hi. lia.
  - intros Hd. exists (Z.to_nat (d - a)). split; [lia|].
    apply elem_of_seq. lia.
Qed.

Lemma date_range_NoDup a b : NoDup (date_range a b).
Proof.
  unfold date_range. apply NoDup_fmap_2; [|apply NoDup_seq].
  intros i j Hij. lia.
Qed.

Example civil_of_epoch : civil_of 0 = Civil 1970 1 1.
Proof. reflexivity. Qed.

Example civil_of_leap_day :
  civil_of (ymd 2024 2 29) = Civil 2024 2 29
  /\ civil_of (ymd 2024 2 29 + 1) = Civil 2024 3 1
  /\ civil_of (ymd 2023 2 28 + 1) = Civil 2023 3 1
  /\ civil_of (-1) = Civil 1969 12 31.
Proof. vm_compute. by repeat split. Qed.

Example date_key_june :
  date_key (ymd 2024 6 30) = 20240630
  /\ month_start_key (ymd 2024 6 17) = 20240601
  /\ weekday (ymd 2024 6 1) = 5
  /\ year_month (civil_of (ymd 2024 6 1)) = "2024-06"%string.
Proof. vm_compute. by repeat split. Qed.

Example date_range_three_days :
  map date_key (date_range (ymd 2024 2 28) (ymd 2024 3 1))
  = [20240228; 20240229; 20240301]
  /\ date_range (ymd 2024 3 1) (ymd 2024 2 28) = [].
Proof. vm_compute. by split. Qed.

End CalendarFacts.

(* ===================================================================== *)
(** * Properties of the pandas operations                                 *)
(* ===================================================================== *)

Section PandasFacts.
Import Calendar Pandas.

Lemma series_min_fold (s : list (option date)) : forall acc,
  match fold_left (fun acc x =>
                     match x, acc with
                     | Some d, Some a => Some (Z.min a d)
                     | Some d, None => Some d
                     | None, _ => acc
                     end) s acc with
  | None => acc = None /\ (forall x, x ∈ s -> x = None)
  | Some m =>
      (acc = Some m \/ Some m ∈ s)
      /\ (forall a, acc = Some a -> (m <= a))
      /\ (forall d, Some d ∈ s -> (m <= d))
  end.
Proof.
  induction s as [|x s IH]; intros acc; simpl.
  - destruct acc; [|split; [done|intros x Hx; inversion Hx]].
    split; [by left|]. split; [intros a [= ->]; lia|intros d Hd; inversion Hd].
  - match goal with |- context [fold_left ?f s ?a] =>
      specialize (IH a); destruct (fold_left f s a) as [m|] end.
    + destruct IH as (Hin & Hacc & Hs).
      destruct x as [d|], acc as [a|]; simpl in *.
      * split; [|split].
        -- destruct Hin as [[= Hm]|Hin]; [|right; by constructor].
           destruct (Z.min_spec a d) as [[? E]|[? E]]; rewrite E in Hm; subst.
           ++ by left.
           ++ right. constructor.
        -- intros a' [= <-]. specialize (Hacc _ eq_refl). lia.
        -- intros d' Hd'. apply elem_of_cons in Hd' as [[= ->]|Hd'];
             [specialize (Hacc _ eq_refl); lia|by apply Hs].
      * split; [|split].
        -- destruct Hin as [[= ->]|Hin]; right; [constructor|by constructor].
        -- done.
        -- intros d' Hd'. apply elem_of_cons in Hd' as [[= ->]|Hd'];
             [by apply Hacc|by apply Hs].
      * split; [|split].
        -- destruct Hin as [Hin|Hin]; [by left|right; by constructor].
        -- done.
        -- intros d' Hd'. apply elem_of_cons in Hd' as [[=]|Hd']. by apply Hs.
      * split; [|split].
        -- destruct Hin as [[=]|Hin]. right; by constructor.
        -- done.
        -- intros d' Hd'. apply elem_of_cons in Hd' as [[=]|Hd']. by apply Hs.
    + destruct IH as (Hacc & Hs).
      destruct x as [d|], acc as [a|]; simpl in *; try done.
      split; [done|]. intros x Hx.
      apply elem_of_cons in Hx as [->|Hx]; [done|by apply Hs].
Qed.

(** [Series.min()]: NaT exactly when the column has no date; otherwise the
    least date of the column. *)
Lemma series_min_None s :
  series_min s = None <-> forall x, x ∈ s -> x = None.
Proof.
  unfold series_min. pose proof (series_min_fold s None) as H.
  match type of H with match ?t with _ => _ end => destruct t as [m|] end.
  - destruct H as ([[=]|Hin] & _ & _). split; [done|].
    intros Hall. by specialize (Hall _ Hin).
  - destruct H as [_ H]. done.
Qed.

Lemma series_min_Some s m :
  series_min s = Some m ->
  Some m ∈ s /\ forall d, Some d ∈ s -> (m <= d).
Proof.
  unfold series_min. pose proof (series_min_fold s None) as H.
  intros E. rewrite E in H. destruct H as ([[=]|Hin] & _ & Hs). done.
Qed.

Lemma series_max_fold (s : list (option date)) : forall acc,
  match fold_left (fun acc x =>
                     match x, acc with
                     | Some d, Some a => Some (Z.max a d)
                     | Some d, None => Some d
                     | None, _ => acc
                     end) s acc with
  | None => acc = None /\ (forall x, x ∈ s -> x = None)
  | Some m =>
      (acc = Some m \/ Some m ∈ s)
      /\ (forall a, acc = Some a -> (a <= m))
      /\ (forall d, Some d ∈ s -> (d <= m))
  end.
Proof.
  induction s as [|x s IH]; intros acc; simpl.
  - destruct acc; [|split; [done|intros x Hx; inversion Hx]].
    split; [by left|]. split; [intros a [= ->]; lia|intros d Hd; inversion Hd].
  - match goal with |- context [fold_left ?f s ?a] =>
      specialize (IH a); destruct (fold_left f s a) as [m|] end.
    + destruct IH as (Hin & Hacc & Hs).
      destruct x as [d|], acc as [a|]; simpl in *.
      * split; [|split].
        -- destruct Hin as [[= Hm]|Hin]; [|right; by constructor].
           destruct (Z.max_spec a d) as [[? E]|[? E]]; rewrite E in Hm; subst.
           ++ right. constructor.
           ++ by left.
        -- intros a' [= <-]. specialize (Hacc _ eq_refl). lia.
        -- intros d' Hd'. apply elem_of_cons in Hd' as [[= ->]|Hd'];
             [specialize (Hacc _ eq_refl); lia|by apply Hs].
      * split; [|split].
        -- destruct Hin as [[= ->]|Hin]; right; [constructor|by constructor].
        -- done.
        -- intros d' Hd'. apply elem_of_cons in Hd' as [[= ->]|Hd'];
             [by apply Hacc|by apply Hs].
      * split; [|split].
        -- destruct Hin as [Hin|Hin]; [by left|right; by constructor].
        -- done.
        -- intros d' Hd'. apply elem_of_cons in Hd' as [[=]|Hd']. by apply Hs.
      * split; [|split].
        -- destruct Hin as [[=]|Hin]. right; by constructor.
        -- done.
        -- intros d' Hd'. apply elem_of_cons in Hd' as [[=]|Hd']. by apply Hs.
    + destruct IH as (Hacc & Hs).
      destruct x as [d|], acc as [a|]; simpl in *; try done.
      split; [done|]. intros x Hx.
      apply elem_of_cons in Hx as [->|Hx]; [done|by apply Hs].
Qed.

Lemma series_max_None s :
  series_max s = None <-> forall x, x ∈ s -> x = None.
Proof.
  unfold series_max. pose proof (series_max_fold s None) as H.
  match type of H with match ?t with _ => _ end => destruct t as [m|] end.
  - destruct H as ([[=]|Hin] & _ & _). split; [done|].
    intros Hall. by specialize (Hall _ Hin).
  - destruct H as [_ H]. done.
Qed.

Lemma series_max_Some s m :
  series_max s = Some m ->
  Some m ∈ s /\ forall d, Some d ∈ s -> (d <= m).
Proof.
  unfold series_max. pose proof (series_max_fold s None) as H.
  intros E. rewrite E in H. destruct H as ([[=]|Hin] & _ & Hs). done.
Qed.

(** Builtin [min]: a NaT in first position is never replaced. *)
Lemma py_min_NaT_first rest : py_min (None :: rest) = None.
Proof.
  unfold py_min. induction rest as [|x rest IH]; [done|].
  simpl. by destruct x.
Qed.

Lemma py_max_NaT_first rest : py_max (None :: rest) = None.
Proof.
  unfold py_max. induction rest as [|x rest IH]; [done|].
  simpl. by destruct x.
Qed.

(** Builtin [min] after a first item that is a date: NaT items are passed
    over, and the least date comes out. *)
Lemma py_min_date_first rest : forall a,
  exists m, py_min (Some a :: rest) = Some m
    /\ Some m ∈ Some a :: rest
    /\ (m <= a) /\ forall d, Some d ∈ rest -> (m <= d).
Proof.
  unfold py_min. induction rest as [|x rest IH]; intros a; simpl.
  - exists a. split; [done|]. split; [constructor|].
    split; [lia|]. intros d Hd. inversion Hd.
  - destruct x as [d|]; simpl.
    + destruct (Z.ltb_spec d a).
      * destruct (IH d) as (m & -> & Hin & Hle & Hall). exists m.
        split; [done|]. split; [by constructor|]. split; [lia|].
        intros d' Hd'. apply elem_of_cons in Hd' as [[= ->]|Hd']; [done|by apply Hall].
      * destruct (IH a) as (m & -> & Hin & Hle & Hall). exists m.
        split; [done|]. split.
        { apply elem_of_cons in Hin as [->|Hin]; [constructor|by do 2 constructor]. }
        split; [done|].
        intros d' Hd'. apply elem_of_cons in Hd' as [[= ->]|Hd']; [lia|by apply Hall].
    + destruct (IH a) as (m & -> & Hin & Hle & Hall). exists m.
      split; [done|]. split.
      { apply elem_of_cons in Hin as [->|Hin]; [constructor|by do 2 constructor]. }
      split; [done|].
      intros d' Hd'. apply elem_of_cons in Hd' as [[=]|Hd']. by apply Hall.
Qed.

Lemma py_max_date_first rest : forall a,
  exists m, py_max (Some a :: rest) = Some m
    /\ Some m ∈ Some a :: rest
    /\ (a <= m) /\ forall d, Some d ∈ rest -> (d <= m).
Proof.
  unfold py_max. induction rest as [|x rest IH]; intros a; simpl.
  - exists a. split; [done|]. split; [constructor|].
    split; [lia|]. intros d Hd. inversion Hd.
  - destruct x as [d|]; simpl.
    + destruct (Z.ltb_spec a d).
      * destruct (IH d) as (m & -> & Hin & Hle & Hall). exists m.
        split; [done|]. split; [by constructor|]. split; [lia|].
        intros d' Hd'. apply elem_of_cons in Hd' as [[= ->]|Hd']; [done|by apply Hall].
      * destruct (IH a) as (m & -> & Hin & Hle & Hall). exists m.
        split; [done|]. split.
        { apply elem_of_cons in Hin as [->|Hin]; [constructor|by do 2 constructor]. }
        split; [done|].
        intros d' Hd'. apply elem_of_cons in Hd' as [[= ->]|Hd']; [lia|by apply Hall].
    + destruct (IH a) as (m & -> & Hin & Hle & Hall). exists m.
      split; [done|]. split.
      { apply elem_of_cons in Hin as [->|Hin]; [constructor|by do 2 constructor]. }
      split; [done|].
      intros d' Hd'. apply elem_of_cons in Hd' as [[=]|Hd']. by apply Hall.
Qed.

End PandasFacts.

(* ===================================================================== *)
(** * Properties of the time dimension                                    *)
(* ===================================================================== *)

Section TimeDimension.
Import Calendar Pandas Normalizer Notions.

Lemma time_row_date_key l :
  map DimTime.date_key (map time_row l) = map date_key l.
Proof. rewrite map_map. done. Qed.

(** With no parseable effective date the first column minimum is NaT,
    builtin [min] and [max] keep it, and [pd.date_range] raises. *)
Lemma build_dim_time_NaT policies claims :
  (forall p, p ∈ policies -> RawPolicies.effective_date p = None) ->
  build_dim_time policies claims = Raise EmptyDateRangeError.
Proof.
  intros Heff. unfold build_dim_time.
  assert (series_min (map RawPolicies.effective_date policies) = None) as E.
  { apply series_min_None. intros x Hx.
    apply list_elem_of_fmap in Hx as (p & -> & Hp). by apply Heff. }
  cbn [map]. rewrite E, py_min_NaT_first. done.
Qed.

(** With a parseable effective date the range runs from the least to the
    greatest date of the four columns. *)
Lemma build_dim_time_range policies claims :
  (exists p, p ∈ policies /\ RawPolicies.effective_date p <> None) ->
  exists lo hi,
    build_dim_time policies claims = Ok (map time_row (date_range lo hi))
    /\ Some lo ∈ observed_dates policies claims
    /\ Some hi ∈ observed_dates policies claims
    /\ forall d, Some d ∈ observed_dates policies claims -> (lo <= d <= hi).
Proof.
  intros (p0 & Hp0 & Hd0). unfold build_dim_time, observed_dates.
  set (c1 := map RawPolicies.effective_date policies).
  set (c2 := map RawPolicies.expiration_date policies).
  set (c3 := map RawClaims.incident_date claims).
  set (c4 := map RawClaims.report_date claims).
  assert (exists a, series_min c1 = Some a) as [a Ha].
  { destruct (series_min c1) eqn:E; [eauto|].
    exfalso. apply Hd0. eapply series_min_None; [exact E|].
    subst c1. apply list_elem_of_fmap. eauto. }
  assert (exists b, series_max c1 = Some b) as [b Hb].
  { destruct (series_max c1) eqn:E; [eauto|].
    exfalso. apply Hd0. eapply series_max_None; [exact E|].
    subst c1. apply list_elem_of_fmap. eauto. }
  cbn [map]. rewrite Ha, Hb.
  destruct (py_min_date_first [series_min c2; series_min c3; series_min c4] a)
    as (lo & -> & Hlo_in & Hlo_a & Hlo).
  destruct (py_max_date_first [series_max c2; series_max c3; series_max c4] b)
    as (hi & -> & Hhi_in & Hhi_b & Hhi).
  exists lo, hi. split; [done|].
  assert (forall c, Some lo = series_min c -> Some lo ∈ c) as Hmin_in.
  { intros c E. symmetry in E. by apply series_min_Some in E as [? _]. }
  assert (forall c, Some hi = series_max c -> Some hi ∈ c) as Hmax_in.
  { intros c E. symmetry in E. by apply series_max_Some in E as [? _]. }
  assert (forall c d, series_min c ∈ [series_min c2; series_min c3; series_min c4] ->
            Some d ∈ c -> (lo <= d)) as Hlo_le.
  { intros c d Hc Hd. destruct (series_min c) as [m|] eqn:E.
    - apply series_min_Some in E as [_ E]. specialize (E _ Hd).
      specialize (Hlo _ Hc). lia.
    - exfalso. pose proof (proj1 (series_min_None c) E _ Hd). done. }
  assert (forall c d, series_max c ∈ [series_max c2; series_max c3; series_max c4] ->
            Some d ∈ c -> (d <= hi)) as Hhi_le.
  { intros c d Hc Hd. destruct (series_max c) as [m|] eqn:E.
    - apply series_max_Some in E as [_ E]. specialize (E _ Hd).
      specialize (Hhi _ Hc). lia.
    - exfalso. pose proof (proj1 (series_max_None c) E _ Hd). done. }
  split; [|split].
  - rewrite <- Ha in Hlo_in. rewrite !elem_of_app.
    repeat (apply elem_of_cons in Hlo_in as [Hlo_in|Hlo_in]); [..|inversion Hlo_in];
      apply Hmin_in in Hlo_in; tauto.
  - rewrite <- Hb in Hhi_in. rewrite !elem_of_app.
    repeat (apply elem_of_cons in Hhi_in as [Hhi_in|Hhi_in]); [..|inversion Hhi_in];
      apply Hmax_in in Hhi_in; tauto.
  - intros d. rewrite !elem_of_app. intros [Hd|[Hd|[Hd|Hd]]].
    + apply series_min_Some in Ha as [_ Ha]. apply series_max_Some in Hb as [_ Hb].
      specialize (Ha _ Hd). specialize (Hb _ Hd). lia.
    + split; [apply (Hlo_le c2)|apply (Hhi_le c2)]; by repeat constructor.
    + split; [apply (Hlo_le c3)|apply (Hhi_le c3)]; by repeat constructor.
    + split; [apply (Hlo_le c4)|apply (Hhi_le c4)]; by repeat constructor.
Qed.

End TimeDimension.

(* ===================================================================== *)
(** * Properties of the builders                                          *)
(* ===================================================================== *)

Section BuilderFacts.
Import Calendar Pandas Normalizer Notions.


Example time_row_first_of_june :
  time_row (ymd 2024 6 1)
  = {| DimTime.date_key := 20240601;
       DimTime.full_date := Civil 2024 6 1;
       DimTime.year := 2024;
       DimTime.month := 6;
       DimTime.month_name := "June";
       DimTime.quarter := 2;
       DimTime.year_month := "2024-06";
       DimTime.day_of_week := 6;
       DimTime.is_weekend := true |}.
Proof. vm_compute. reflexivity. Qed.

Lemma traverse_Forall2 {E A B} (f : A -> result E B) l : forall ys,
  traverse f l = Ok ys -> Forall2 (fun x y => f x = Ok y) l ys.
Proof.
  induction l as [|x l IH]; simpl; intros ys H.
  - injection H as <-. constructor.
  - destruct (f x) as [y|e] eqn:Ex; simpl in H; [|done].
    destruct (traverse f l) as [ys'|e]; simpl in H; [|done].
    injection H as <-. constructor; [done|by apply IH].
Qed.

Lemma traverse_returns {E A B} (f : A -> result E B) l :
  (forall x, x ∈ l -> exists y, f x = Ok y) ->
  exists ys, traverse f l = Ok ys.
Proof.
  induction l as [|x l IH]; simpl; intros H; [eauto|].
  destruct (H x) as [y ->]; [constructor|]. simpl.
  destruct IH as [ys ->]; [intros; apply H; by constructor|]. simpl. eauto.
Qed.

Lemma traverse_raises {E A B} (f : A -> result E B) l x e :
  x ∈ l -> f x = Raise e -> exists e', traverse f l = Raise e'.
Proof.
  induction l as [|x' l IH]; intros Hx Hf; [inversion Hx|].
  apply elem_of_cons in Hx as [->|Hx]; simpl.
  - rewrite Hf. simpl. eauto.
  - destruct (f x'); simpl; [|eauto].
    destruct (IH Hx Hf) as [e' ->]. simpl. eauto.
Qed.





End BuilderFacts.

(* ===================================================================== *)
(** * The time dimension and the date keys of the facts                   *)
(* ===================================================================== *)

Section TimeDimensionClaims.
Import Calendar Pandas Normalizer Notions Examples.

(** When some effective date parses, the time dimension has one row per
    day from the least to the greatest observed date, with distinct
    keys. *)
Lemma build_dim_time_contiguous policies claims :
  (exists p, p ∈ policies /\ RawPolicies.effective_date p <> None) ->
  exists dim,
    build_dim_time policies claims = Ok dim
    /\ covers_observed_range policies claims dim.
Proof.
  intros H. destruct (build_dim_time_range _ claims H)
    as (lo & hi & -> & Hlo & Hhi & Hall).
  eexists. split; [done|]. exists lo, hi.
  split; [done|]. split; [done|]. split; [done|].
  split; [by rewrite map_map|]. split; [apply time_row_date_key|].
  split.
  - rewrite length_map, date_range_length. f_equal. lia.
  - rewrite time_row_date_key. apply (NoDup_fmap_2 date_key), date_range_NoDup.
Qed.

(** C3 (fails on the code).  The claim: whenever the policy and claim
    tables hold at least one parseable date, build_dim_time emits one row
    per day from the least to the greatest observed date.  Here the only
    policy has an effective date that does not parse; its expiration date
    and both dates of the claim do parse.  The builder raises instead of
    emitting rows: the NaT minimum of the effective_date column comes
    first in builtin min/max and is never replaced. *)
Theorem build_dim_time_fails_despite_parseable_dates :
  Some (ymd 2024 6 30) ∈ observed_dates policies_bad_effective claims_june
  /\ build_dim_time policies_bad_effective claims_june
     = Raise EmptyDateRangeError
  /\ ~ exists dim,
         build_dim_time policies_bad_effective claims_june = Ok dim
         /\ covers_observed_range policies_bad_effective claims_june dim.
Proof.
  split; [|split].
  - vm_compute. by repeat constructor.
  - reflexivity.
  - intros (dim & H & _). discriminate H.
Qed.

(** The same tables with the two policy date columns exchanged (the good
    dates first) do get their time dimension: the failure depends on
    which column holds the unparseable dates. *)
Example build_dim_time_good_effective :
  exists dim,
    build_dim_time
      [policy "P1" "Auto" "Full" (Some (ymd 2024 6 30)) None] claims_june
    = Ok dim
    /\ map DimTime.date_key dim = map date_key (date_range (ymd 2024 6 10) (ymd 2024 6 30)).
Proof. eexists. split; vm_compute; reflexivity. Qed.

(** C8.  With no parseable date in the four date columns, build_dim_time
    fails with the empty-date-range error. *)
Theorem build_dim_time_no_valid_dates policies claims :
  (forall x, x ∈ observed_dates policies claims -> x = None) ->
  build_dim_time policies claims = Raise EmptyDateRangeError.
Proof.
  intros Hnone. apply build_dim_time_NaT. intros p Hp.
  apply Hnone. unfold observed_dates. apply elem_of_app. left.
  by apply list_elem_of_fmap_2.
Qed.

Lemma build_dim_time_no_valid_dates_witness :
  (forall x, x ∈ observed_dates policies_no_dates claims_no_dates -> x = None)
  /\ build_dim_time policies_no_dates claims_no_dates = Raise EmptyDateRangeError.
Proof.
  assert (forall x, x ∈ observed_dates policies_no_dates claims_no_dates -> x = None) as H.
  { intros x Hx. vm_compute in Hx.
    repeat (apply elem_of_cons in Hx as [Hx|Hx]; [exact Hx|]). inversion Hx. }
  split; [exact H|].
  exact (build_dim_time_no_valid_dates policies_no_dates claims_no_dates H).
Defined.


(** The builders called on an empty policy table, which main never does
    (load_csv stops the run on an empty policies.csv): a claim with good
    dates gets its fact row and its two date keys, but no time dimension
    is built. *)
Example date_keys_unresolved_without_policies :
  all_dates_parse [] claims_june
  /\ (exists r, build_fact_claims claims_june [] = Ok [r]
                /\ FactClaims.incident_date_key r = 20240610
                /\ FactClaims.report_date_key r = 20240612)
  /\ build_dim_time [] claims_june = Raise EmptyDateRangeError
  /\ ~ date_keys_resolve [] claims_june.
Proof.
  split; [|split; [|split]].
  - intros x Hx. vm_compute in Hx.
    repeat (apply elem_of_cons in Hx as [->|Hx]; [done|]). inversion Hx.
  - eexists. split; [vm_compute; reflexivity|]. by vm_compute.
  - reflexivity.
  - intros (dim & fp & fc & H & _). discriminate H.
Qed.




End TimeDimensionClaims.

(* ===================================================================== *)
(** * The state dimension                                                 *)
(* ===================================================================== *)

Section StateDimension.
Import Pandas Normalizer Healthcheck Notions Examples.

Lemma drop_duplicates_from_keys {A K} `{EqDecision K} (key : A -> K) l :
  forall seen k,
    k ∈ map key (drop_duplicates_from key seen l) <-> k ∈ map key l /\ k ∉ seen.
Proof.
  induction l as [|x l IH]; intros seen k; simpl.
  - rewrite elem_of_nil. tauto.
  - destruct (decide (key x ∈ seen)) as [Hs|Hs]; simpl.
    + rewrite IH, elem_of_cons. split; [tauto|].
      intros [[->|?] ?]; [done|tauto].
    + rewrite !elem_of_cons, IH, elem_of_cons.
      destruct (decide (k = key x)) as [->|Hne]; tauto.
Qed.

Lemma drop_duplicates_from_NoDup {A K} `{EqDecision K} (key : A -> K) l :
  forall seen, NoDup (map key (drop_duplicates_from key seen l)).
Proof.
  induction l as [|x l IH]; intros seen; simpl; [constructor|].
  destruct (decide (key x ∈ seen)); simpl; [apply IH|].
  apply NoDup_cons. split; [|apply IH].
  rewrite drop_duplicates_from_keys. intros [_ H]. apply H. constructor.
Qed.

Lemma drop_duplicates_from_sub {A K} `{EqDecision K} (key : A -> K) l :
  forall seen x, x ∈ drop_duplicates_from key seen l -> x ∈ l.
Proof.
  induction l as [|y l IH]; intros seen x; simpl; [done|].
  destruct (decide (key y ∈ seen)).
  - intros H. constructor. by eapply IH.
  - intros H. apply elem_of_cons in H as [->|H]; [constructor|].
    constructor. by eapply IH.
Qed.

(** [drop_duplicates]: the keys that occur are kept, each once. *)
Lemma drop_duplicates_keys {A K} `{EqDecision K} (key : A -> K) l k :
  k ∈ map key (drop_duplicates key l) <-> k ∈ map key l.
Proof.
  unfold drop_duplicates. rewrite drop_duplicates_from_keys.
  pose proof (not_elem_of_nil k). tauto.
Qed.

Lemma drop_duplicates_NoDup {A K} `{EqDecision K} (key : A -> K) l :
  NoDup (map key (drop_duplicates key l)).
Proof. apply drop_duplicates_from_NoDup. Qed.

Lemma drop_duplicates_sub {A K} `{EqDecision K} (key : A -> K) l x :
  x ∈ drop_duplicates key l -> x ∈ l.
Proof. apply drop_duplicates_from_sub. Qed.

#[local] Instance state_triple_inj : Inj (=) (=) state_triple.
Proof. intros [a b c] [a' b' c'] [= -> -> ->]. done. Qed.

Lemma NoDup_map_eq {A B} (f : A -> B) l x y :
  NoDup (map f l) -> x ∈ l -> y ∈ l -> f x = f y -> x = y.
Proof.
  induction l as [|z l IH]; intros Hnd Hx Hy Hf; [inversion Hx|].
  simpl in Hnd. apply NoDup_cons in Hnd as [Hz Hnd].
  apply elem_of_cons in Hx as [->|Hx]; apply elem_of_cons in Hy as [->|Hy].
  - done.
  - exfalso. apply Hz. rewrite Hf. by apply list_elem_of_fmap_2.
  - exfalso. apply Hz. rewrite <- Hf. by apply list_elem_of_fmap_2.
  - by apply IH.
Qed.

(** The rows of the state dimension are the distinct triples of the
    clients. *)
Lemma elem_of_build_dim_state clients r :
  r ∈ build_dim_state clients <-> r ∈ map state_of_client clients.
Proof.
  unfold build_dim_state, sort_values. rewrite merge_sort_Permutation.
  split; [apply drop_duplicates_sub|].
  intros Hr.
  assert (state_triple r ∈ map state_triple
            (drop_duplicates state_triple (map state_of_client clients))) as H.
  { apply drop_duplicates_keys. by apply list_elem_of_fmap_2. }
  apply list_elem_of_fmap in H as (r' & Heq & Hr'). by apply (inj _) in Heq as ->.
Qed.

Lemma build_dim_state_NoDup clients : NoDup (build_dim_state clients).
Proof.
  unfold build_dim_state, sort_values. rewrite merge_sort_Permutation.
  apply (NoDup_fmap_1 state_triple), drop_duplicates_NoDup.
Qed.

(** The state codes of the dimension are distinct exactly when no state
    occurs under two regions or tiers. *)
Lemma build_dim_state_unique_iff clients :
  NoDup (map DimState.state_code (build_dim_state clients))
  <-> state_determines_region clients.
Proof.
  split.
  - intros Hnd c1 c2 H1 H2 Hs.
    assert (state_of_client c1 = state_of_client c2) as E.
    { apply (NoDup_map_eq DimState.state_code (build_dim_state clients)); [done|..|done];
        apply elem_of_build_dim_state; by apply list_elem_of_fmap_2. }
    by injection E.
  - intros Hfd. apply NoDup_fmap_2_strong; [|apply build_dim_state_NoDup].
    intros r1 r2 H1 H2 Hs.
    apply elem_of_build_dim_state, list_elem_of_fmap in H1 as (c1 & -> & H1).
    apply elem_of_build_dim_state, list_elem_of_fmap in H2 as (c2 & -> & H2).
    destruct (Hfd c1 c2 H1 H2 Hs) as [Hr Ht].
    unfold state_of_client. simpl in Hs. by rewrite Hs, Hr, Ht.
Qed.

(** C7 as stated fails: two clients of one state under two regions give
    two rows with the same state_code. *)
Lemma build_dim_state_duplicate_state_code :
  map DimState.state_code (build_dim_state clients_two_regions)
  = [Some "CA"; Some "CA"]%string
  /\ ~ NoDup (map DimState.state_code (build_dim_state clients_two_regions)).
Proof.
  split; [vm_compute; reflexivity|].
  rewrite build_dim_state_unique_iff. intros H.
  destruct (H (client "C1" "CA" "W" "Tier 1") (client "C2" "CA" "SW" "Tier 1"))
    as [Hr _]; [by repeat constructor..|done|discriminate Hr].
Qed.

(** C7 (amended).  The state dimension has a unique state_code exactly for
    the client tables in which every state_code comes with a single
    (region_code, market_tier) pair; on every other client table a
    state_code repeats, and check_dim_state of the validator rejects the
    dimension as fatal. *)
Theorem build_dim_state_state_code_unique clients :
  (NoDup (map DimState.state_code (build_dim_state clients))
   <-> state_determines_region clients)
  /\ (check_dim_state (build_dim_state clients)
        = Fatal "Duplicate state_code in dim_state"
      <-> ~ state_determines_region clients)
  /\ (check_dim_state (build_dim_state clients) = Passed [] tt
      <-> state_determines_region clients).
Proof.
  pose proof (build_dim_state_unique_iff clients) as Hiff.
  split; [done|]. rewrite <- Hiff.
  unfold check_dim_state, has_duplicates, when, fail, ok.
  case_bool_decide as Hd.
  - split; (split; [done|]); intros H; [done|by destruct Hd].
  - split; (split; [done|]); intros H; [by destruct H|].
    by destruct (decide (NoDup (map DimState.state_code (build_dim_state clients)))).
Qed.

Example build_dim_state_one_state :
  build_dim_state clients_one_state
  = [ {| DimState.state_code := Some "NY"; DimState.region_code := Some "NE";
         DimState.market_tier := Some "Tier 1" |} ].
Proof. vm_compute. reflexivity. Qed.

Example build_dim_state_two_regions :
  map DimState.state_code (build_dim_state clients_two_regions)
  = [Some "CA"; Some "CA"]
  /\ check_dim_state (build_dim_state clients_two_regions)
     = Fatal "Duplicate state_code in dim_state".
Proof. split; vm_compute; reflexivity. Qed.

End StateDimension.

(* ===================================================================== *)
(** * The claim facts                                                     *)
(* ===================================================================== *)

Section ClaimFacts.
Import Calendar Pandas Normalizer Notions Examples.




(** The orphan claim K2 is kept, with null enrichment. *)
Example build_fact_claims_orphan_kept :
  exists rows,
    build_fact_claims claims_orphan policies_june = Ok rows
    /\ map FactClaims.claim_id rows = [Some "K1"; Some "K2"]%string
    /\ map FactClaims.state_code rows = [Some "NY"; None]%string
    /\ map FactClaims.product_key rows = [Some "AUTO_FULL"; None]%string.
Proof. eexists. split; [vm_compute; reflexivity|]. by vm_compute. Qed.

End ClaimFacts.

(* ===================================================================== *)
(** * The product key                                                     *)
(* ===================================================================== *)

Section ProductKey.
Import Pandas Normalizer Notions Examples.
Local Open Scope string_scope.





Lemma append_nil_l (b : string) : "" +:+ b = b.
Proof. reflexivity. Qed.

Lemma append_cons c (a b : string) : String c a +:+ b = String c (a +:+ b).
Proof. reflexivity. Qed.

Lemma map_chars_app f a b :
  map_chars f (a +:+ b) = map_chars f a +:+ map_chars f b.
Proof.
  induction a as [|c a IH]; [done|].
  rewrite append_cons. simpl. by rewrite IH, append_cons.
Qed.

Lemma append_assoc' (a b c : string) : (a +:+ b) +:+ c = a +:+ (b +:+ c).
Proof.
  induction a as [|x a IH]; [done|]. by rewrite !append_cons, IH.
Qed.

(** The key is the key form of the line of business, an underscore, the
    key form of the plan name. *)
Lemma derive_product_key_Some l p :
  derive_product_key (Some l) (Some p)
  = Some (key_form l +:+ String "_" (key_form p)).
Proof.
  unfold derive_product_key, cell_str, cell_add, key_form,
    str_replace_space, str_upper.
  cbn [fmap option_fmap option_map]. f_equal.
  rewrite append_assoc', !map_chars_app. reflexivity.
Qed.




Example derive_product_key_auto_full :
  derive_product_key (Some "Auto") (Some "Full") = Some "AUTO_FULL"
  /\ derive_product_key (Some "Health") (Some "Gold Plus") = Some "HEALTH_GOLD_PLUS"
  /\ derive_product_key None (Some "Full") = None.
Proof. by vm_compute. Qed.

End ProductKey.

(* ===================================================================== *)
(** * The loader                                                          *)
(* ===================================================================== *)

Section LoaderFacts.
Import Pandas Loader Notions.

Variable files : table → option csv.
Variable accepts : statement → store → bool.
Variable commit_accepted : store → bool.
Variable read_csv : csv → option frame.
Variable to_csv : frame → option csv.

(** One more statement of [load], run in the equation [E] of the result:
    it is refused, or its file is missing, or the run goes on. *)
Ltac load_step E :=
  match type of E with
  | context [accepts ?s ?w] => destruct (accepts s w) eqn:?
  | context [clean_fact_claims_csv ?r ?w ?f] =>
      destruct (clean_fact_claims_csv r w f) eqn:?
  | context [files ?t] => destruct (files t) eqn:?
  | context [commit_accepted ?w] => destruct (commit_accepted w) eqn:?
  end;
  cbn [fst snd working committed sent] in E.

Ltac load_leaf E :=
  injection E as <- <-;
  cbn [fst snd working committed sent truncation_order load_order flat_map app
       raised_by];
  repeat split;
  first
    [ reflexivity
    | assumption
    | eexists; reflexivity
    | eexists; split; eassumption
    | intros []; reflexivity ].

(** What a run of [load] leaves behind.  The tables are truncated and
    loaded in one fixed order, every truncation comes before the first
    load, nothing is committed unless the whole run succeeds, and then
    every table holds exactly the rows streamed to it; a run that raises
    does so at a missing file or at a refused statement or commit. *)
Lemma load_outcome db :
  let rc := load files accepts commit_accepted read_csv to_csv (connect db) in
  truncation_order (sent (snd rc))
    `prefix_of` [fact_claims; fact_expenses; fact_taxes; fact_policies;
                 dim_policies; dim_products; dim_clients; dim_state; dim_time]
  /\ load_order (sent (snd rc))
       `prefix_of` [dim_time; dim_state; dim_clients; dim_products; dim_policies;
                    fact_policies; fact_claims; fact_expenses; fact_taxes]
  /\ (load_order (sent (snd rc)) <> [] ->
      truncation_order (sent (snd rc))
      = [fact_claims; fact_expenses; fact_taxes; fact_policies;
         dim_policies; dim_products; dim_clients; dim_state; dim_time])
  /\ match fst rc with
     | Raise e =>
         committed (snd rc) = db
         /\ raised_by files accepts commit_accepted read_csv to_csv e (snd rc)
     | Ok _ =>
         committed (snd rc) = working (snd rc)
         /\ load_order (sent (snd rc))
            = [dim_time; dim_state; dim_clients; dim_products; dim_policies;
               fact_policies; fact_claims; fact_expenses; fact_taxes]
         /\ forall t, exists f,
              streamed files read_csv to_csv t = Some f
              /\ working (snd rc) t = rows f
     end.
Proof.
  intros rc. subst rc.
  destruct (load files accepts commit_accepted read_csv to_csv (connect db)) as [r c] eqn:E.
  unfold load, connect, copy, execute, csv_path, commit, raising, mbind, mret,
    session_bind, session_ret in E.
  cbn [fst snd working committed sent] in E.
  repeat (load_step E; [|solve [load_leaf E]]).
  injection E as <- <-.
  cbn [fst snd working committed sent truncation_order load_order flat_map app].
  repeat split.
  - by eexists.
  - by eexists.
  - intros t; destruct t; eexists;
      (split; [unfold streamed;
               match goal with
               | H : files _ = Some _ |- _ => rewrite H
               end; first [reflexivity | eassumption]
              |reflexivity]).
Qed.

(** C1.  Bulk load is all-or-nothing.  Whenever a step of the
    transaction raises (BEGIN, a TRUNCATE, a missing file, the cleaning of
    the fact_claims file, a COPY, the commit), run() rolls the transaction
    back, so the connection sees the database as it was before the run,
    and raises the fatal error that wraps the cause; the database is then
    what it was before the run, and every table has its pre-run row count.
    Otherwise every table holds exactly the rows streamed to it.  The
    database is never a mix of both.  Without a database URL (unset or
    empty) the script stops before it connects. *)
Theorem bulk_load_all_or_nothing (reachable : bool) (db_url : option string) db :
  let out :=
    module_09 files accepts commit_accepted reachable read_csv to_csv db_url db in
  let rs := run_session files accepts commit_accepted read_csv to_csv db in
  (forall e c,
     load files accepts commit_accepted read_csv to_csv (connect db) = (Raise e, c) ->
     raised_by files accepts commit_accepted read_csv to_csv e c
     /\ rs = (Raise (LoadFailed e), rollback c)
     /\ working (snd rs) = db /\ committed (snd rs) = db
     /\ (forall t, row_count (working (snd rs)) t = row_count db t)
     /\ (forall url, reachable = true -> db_url = Some url -> url <> EmptyString ->
           out = (Raise (LoadFailed e), db)))
  /\ (forall c,
        load files accepts commit_accepted read_csv to_csv (connect db) = (Ok tt, c) ->
        rs = (Ok tt, c)
        /\ committed c = working c
        /\ forall t, exists f,
             streamed files read_csv to_csv t = Some f /\ committed c t = rows f)
  /\ ((db_url = None \/ db_url = Some EmptyString) -> out = (Raise MissingDbUrl, db))
  /\ match fst out with
     | Raise _ =>
         snd out = db /\ forall t, row_count (snd out) t = row_count db t
     | Ok _ =>
         forall t, exists f,
           streamed files read_csv to_csv t = Some f /\ snd out t = rows f
     end.
Proof.
  intros out rs. subst out rs. unfold module_09, run_session.
  pose proof (load_outcome db) as H. cbv zeta in H.
  destruct (load files accepts commit_accepted read_csv to_csv (connect db))
    as [[[]|e] c]; cbn [fst snd] in *; destruct H as (_ & _ & _ & H).
  - destruct H as (Hc & _ & H).
    split; [intros e c' [=]|]. split; [|split].
    + intros c' [= <-]. split; [done|]. split; [done|].
      intros t. destruct (H t) as (f & ? & ?). exists f. by rewrite Hc.
    + by intros [->| ->].
    + destruct (missing_url db_url); [done|]. destruct reachable; [|done].
      cbn [fst snd]. intros t. destruct (H t) as (f & ? & ?). exists f.
      by rewrite Hc.
  - destruct H as [H Hcause]. cbn [rollback committed working]. rewrite H.
    split; [|split; [|split]].
    + intros e' c' [= <- <-]. split; [done|]. split; [done|].
      split; [done|]. split; [done|]. split; [done|].
      intros url -> -> Hurl. cbn [missing_url].
      by rewrite bool_decide_eq_false_2.
    + by intros c' [=].
    + by intros [->| ->].
    + destruct (missing_url db_url); [done|]. by destruct reachable.
Qed.

(** C4 (amended).  In every run the tables are truncated in the order
    fact_claims, fact_expenses, fact_taxes, fact_policies, dim_policies,
    dim_products, dim_clients, dim_state, dim_time (as far as the run
    gets), no table is loaded before all are truncated, and the tables are
    loaded in the order dim_time, dim_state, dim_clients, dim_products,
    dim_policies, fact_policies, fact_claims, fact_expenses, fact_taxes
    (all of them when the run completes): the dimensions in the reverse of
    their truncation order and before every fact, the facts not in the
    reverse of theirs. *)
Theorem load_truncates_then_loads_in_fixed_order db :
  let rc := load files accepts commit_accepted read_csv to_csv (connect db) in
  let truncated := [fact_claims; fact_expenses; fact_taxes; fact_policies;
                    dim_policies; dim_products; dim_clients; dim_state; dim_time] in
  let loaded := [dim_time; dim_state; dim_clients; dim_products; dim_policies;
                 fact_policies; fact_claims; fact_expenses; fact_taxes] in
  truncation_order (sent (snd rc)) `prefix_of` truncated
  /\ load_order (sent (snd rc)) `prefix_of` loaded
  /\ (load_order (sent (snd rc)) <> [] ->
      truncation_order (sent (snd rc)) = truncated)
  /\ (fst rc = Ok tt ->
      truncation_order (sent (snd rc)) = truncated
      /\ load_order (sent (snd rc)) = loaded)
  /\ List.filter is_dimension loaded = rev (List.filter is_dimension truncated)
  /\ loaded = List.filter is_dimension loaded
              ++ List.filter (fun t => negb (is_dimension t)) loaded
  /\ List.filter (fun t => negb (is_dimension t)) loaded
     = [fact_policies; fact_claims; fact_expenses; fact_taxes].
Proof.
  intros rc truncated loaded.
  pose proof (load_outcome db) as H. cbv zeta in H. fold rc in H.
  destruct H as (Ht & Hl & Htl & H).
  split; [exact Ht|]. split; [exact Hl|]. split; [exact Htl|].
  split; [|by repeat split].
  intros E. rewrite E in H. destruct H as (_ & Hload & _).
  split; [|exact Hload]. apply Htl. by rewrite Hload.
Qed.

End LoaderFacts.

Section LoaderExamples.
Import Pandas Loader Notions Examples.

(** C4 as stated fails: in a run that completes, the load order is not
    the reverse of the truncation order (the facts are loaded policies,
    claims, expenses, taxes). *)
Lemma load_order_is_not_reverse_truncation_order :
  let rc := load sample_files accept_all (fun _ => true)
              text_read_csv text_to_csv (connect db_old) in
  fst rc = Ok tt
  /\ load_order (sent (snd rc)) <> rev (truncation_order (sent (snd rc))).
Proof. split; [reflexivity|]. vm_compute. discriminate. Qed.

(** A run in which the server refuses the COPY into fact_claims: the
    transaction had truncated everything and loaded six tables, and the
    database ends as it was. *)
Example load_refused_at_fact_claims :
  let rc := load sample_files refuse_fact_claims (fun _ => true)
              text_read_csv text_to_csv (connect db_old) in
  let out := module_09 sample_files refuse_fact_claims (fun _ => true) true
               text_read_csv text_to_csv (Some "postgresql://store"%string) db_old in
  map (fun t => row_count (working (snd rc)) t) all_tables
  = [2; 2; 2; 2; 2; 2; 0; 0; 0]%nat
  /\ fst out
     = Raise (LoadFailed (DatabaseError
                (COPY fact_claims
                   ["claim_id"; "policy_id"; "product_key"; "line_of_business";
                    "state_code"; "region_code"; "claim_type"; "claim_status";
                    "fraud_flag"; "incident_date_key"; "report_date_key";
                    "settlement_date_key"; "days_to_settle";
                    "claim_amount_requested"; "claim_amount_approved";
                    "claim_amount_paid"]%string
                   (Csv ["claim_id"; "policy_id"; "fraud_flag"]
                        [["K1"; "P1"; "1"]; ["K2"; "P1"; "0"]])%string)))
  /\ map (snd out) all_tables = map db_old all_tables.
Proof. vm_compute. by repeat split. Qed.

(** A run that completes: every table holds the rows of its file. *)
Example load_completes :
  let out := module_09 sample_files accept_all (fun _ => true) true
               text_read_csv text_to_csv (Some "postgresql://store"%string) db_old in
  fst out = Ok tt
  /\ map (fun t => row_count (snd out) t) all_tables
     = [2; 2; 2; 2; 2; 2; 2; 2; 2]%nat
  /\ snd out fact_claims = [["K1"; "P1"; "1"]; ["K2"; "P1"; "0"]]%string.
Proof. vm_compute. by repeat split. Qed.

End LoaderExamples.


(* ===================================================================== *)
(** * The pre-load validator                                              *)
(* ===================================================================== *)

Section ValidatorFacts.
Import Pandas Healthcheck Notions.

Lemma verdict_seq {B} (m : outcome unit) (k : outcome B) :
  verdict (m ;; k) = match verdict m with Some x => Some x | None => verdict k end.
Proof. destruct m as [|ws []]; simpl; [done|]. by destruct k. Qed.

Lemma verdict_when_fail b msg :
  verdict (when b (fail msg)) = if b then Some msg else None.
Proof. by destruct b. Qed.


Lemma nonempty_unresolved `{Countable K} (a b : list K) :
  nonempty (set_of a ∖ set_of b) = true <-> unresolved a b.
Proof.
  unfold nonempty, set_of, unresolved. rewrite bool_decide_eq_true. split.
  - intros Hne. apply set_choose_L in Hne as [k Hk].
    apply elem_of_difference in Hk as [Ha Hb].
    rewrite elem_of_list_to_set in Ha, Hb. eauto.
  - intros (k & Ha & Hb) E.
    assert (k ∈ (list_to_set a ∖ list_to_set b : gset K)) as Hk.
    { apply elem_of_difference. by rewrite !elem_of_list_to_set. }
    rewrite E in Hk. by apply elem_of_empty in Hk.
Qed.

Lemma float64_all_missing col : float64 col = true <-> all_missing col.
Proof.
  unfold float64, all_missing. rewrite forallb_forall. split.
  - intros H k Hk. apply list_elem_of_In, H in Hk. by apply bool_decide_eq_true in Hk.
  - intros H k Hk. apply bool_decide_eq_true, H. by apply list_elem_of_In.
Qed.

(** The difference of two sets of text keys is not empty exactly when a
    key of the first column is not resolved by the second. *)
Lemma nonempty_unresolved_text (a b : list cell) :
  nonempty (set_difference a b) = true <-> unresolved_text a b.
Proof.
  unfold nonempty, set_difference, text_set, unresolved_text.
  rewrite bool_decide_eq_true.
  assert (forall (X : gset member), X ≠ ∅ <-> exists m, m ∈ X) as Hne.
  { intros X. split; [apply set_choose_L|]. intros (m & Hm) ->.
    by apply elem_of_empty in Hm. }
  rewrite Hne. clear Hne.
  destruct (float64 a) eqn:Ea.
  - apply float64_all_missing in Ea. split.
    + intros (m & Hm). apply elem_of_difference in Hm as [Hm _].
      apply elem_of_list_to_set, elem_of_lookup_imap in Hm as (i & k & -> & Hi).
      exists k. split; [by eapply list_elem_of_lookup_2|]. right.
      split; [|by left]. apply Ea. by eapply list_elem_of_lookup_2.
    + intros (k & Hk & _). apply list_elem_of_lookup in Hk as (i & Hi).
      exists (NaN_float true i). apply elem_of_difference. split.
      * apply elem_of_list_to_set, elem_of_lookup_imap. eauto.
      * destruct (float64 b); rewrite elem_of_list_to_set.
        -- intros (j & k' & [=] & _)%elem_of_lookup_imap.
        -- intros (k' & E & _)%list_elem_of_fmap. by destruct k'.
  - assert (~ all_missing a) as Hna.
    { intros H. apply float64_all_missing in H. congruence. }
    assert (exists s, Some s ∈ a) as (s0 & Hs0).
    { clear Ea. induction a as [|[s|] a IH].
      - exfalso. apply Hna. by intros k ?%elem_of_nil.
      - exists s. by left.
      - destruct IH as (s & Hs).
        + intros H. apply Hna. intros k [->|Hk]%elem_of_cons; [done|by apply H].
        + exists s. by right. }
    set (to_member := fun c : cell => match c with
                                      | Some s => Text s
                                      | None => NaN_object
                                      end).
    assert (Inj (=) (=) to_member) as Hinj.
    { intros [x|] [y|]; simpl; congruence. }
    destruct (float64 b) eqn:Eb.
    + apply float64_all_missing in Eb. split.
      * intros _. exists (Some s0). split; [done|]. left.
        intros Hin. by apply Eb in Hin.
      * intros _. exists (Text s0). apply elem_of_difference. split.
        -- apply elem_of_list_to_set, list_elem_of_fmap. by exists (Some s0).
        -- rewrite elem_of_list_to_set.
           intros (j & k' & [=] & _)%elem_of_lookup_imap.
    + assert (~ all_missing b) as Hnb.
      { intros H. apply float64_all_missing in H. congruence. }
      split.
      * intros (m & Hm). apply elem_of_difference in Hm as [Hm Hn].
        rewrite elem_of_list_to_set in Hm, Hn.
        apply list_elem_of_fmap in Hm as (k & -> & Hk).
        exists k. split; [done|]. left. intros Hin. apply Hn.
        apply list_elem_of_fmap. by exists k.
      * intros (k & Hk & [Hn|(_ & [?|?])]); [|done|done].
        exists (to_member k). apply elem_of_difference.
        rewrite !elem_of_list_to_set.
        split; [apply list_elem_of_fmap; by exists k|].
        intros (k' & E & Hk')%list_elem_of_fmap. apply Hinj in E. by subst.
Qed.

Lemma size_unresolved `{Countable K} (a b : list K) :
  size (set_of a ∖ set_of b) = unresolved_count a b.
Proof.
  unfold set_of, unresolved_count.
  rewrite <- (size_list_to_set (C:=gset K)) by apply NoDup_remove_dups.
  f_equal. apply set_eq. intros k.
  rewrite elem_of_difference, !elem_of_list_to_set, elem_of_remove_dups,
    list_elem_of_filter. tauto.
Qed.

Lemma nonempty_count `{Countable K} (a b : list K) :
  nonempty (set_of a ∖ set_of b) = bool_decide (unresolved_count a b <> 0%nat).
Proof.
  rewrite <- size_unresolved. unfold nonempty.
  apply bool_decide_ext. rewrite size_non_empty_iff. by unfold_leibniz.
Qed.


Lemma main_missing_or_present s :
  (main s = Fatal "Missing normalized files"
   /\ forall f g, main (with_secondary_keys f g s) = Fatal "Missing normalized files")
  \/ exists dt ds dc dpr dp fp fc fe ft,
       s = Staged (Some dt) (Some ds) (Some dc) (Some dpr) (Some dp)
                  (Some fp) (Some fc) (Some fe) (Some ft).
Proof.
  destruct s as [odt ods odc odpr odp ofp ofc ofe oft].
  destruct odt as [dt|]; [|by left].
  destruct ods as [ds|]; [|by left].
  destruct odc as [dc|]; [|by left].
  destruct odpr as [dpr|]; [|by left].
  destruct odp as [dp|]; [|by left].
  destruct ofp as [fp|]; [|by left].
  destruct ofc as [fc|]; [|by left].
  destruct ofe as [fe|]; [|by left].
  destruct oft as [ft|]; [|by left].
  right. by do 9 eexists.
Qed.

Lemma outcome_left_id {A B} (a : A) (k : A -> outcome B) :
  (Passed [] a ≫= k) = k a.
Proof. unfold mbind, outcome_bind. by destruct (k a). Qed.

Lemma main_present dt ds dc dpr dp fp fc fe ft :
  main (Staged (Some dt) (Some ds) (Some dc) (Some dpr) (Some dp)
               (Some fp) (Some fc) (Some fe) (Some ft))
  = loaded "dim_time.csv" dt (loaded "dim_state.csv" ds
      (loaded "dim_clients.csv" dc (loaded "dim_products.csv" dpr
        (loaded "dim_policies.csv" dp (loaded "fact_policies.csv" fp
          (loaded "fact_claims.csv" fc (loaded "fact_expenses.csv" fe
            (loaded "fact_taxes.csv" ft
               (all_checks dt ds dc dpr dp fp fc fe ft))))))))).
Proof.
  unfold main.
  change (check_files _) with (Passed [] tt : outcome unit).
  rewrite outcome_left_id. cbn [dim_time_csv dim_state_csv dim_clients_csv
    dim_products_csv dim_policies_csv fact_policies_csv fact_claims_csv
    fact_expenses_csv fact_taxes_csv].
  destruct dt; [done|]. cbn [load_csv loaded]. rewrite outcome_left_id.
  destruct ds; [done|]. cbn [load_csv loaded]. rewrite outcome_left_id.
  destruct dc; [done|]. cbn [load_csv loaded]. rewrite outcome_left_id.
  destruct dpr; [done|]. cbn [load_csv loaded]. rewrite outcome_left_id.
  destruct dp; [done|]. cbn [load_csv loaded]. rewrite outcome_left_id.
  destruct fp; [done|]. cbn [load_csv loaded]. rewrite outcome_left_id.
  destruct fc; [done|]. cbn [load_csv loaded]. rewrite outcome_left_id.
  destruct fe; [done|]. cbn [load_csv loaded]. rewrite outcome_left_id.
  destruct ft; [done|]. cbn [load_csv loaded]. rewrite outcome_left_id.
  reflexivity.
Qed.

Lemma verdict_loaded {A} name (df : list A) k :
  verdict (loaded name df k)
  = match df with [] => Some (name +:+ " is empty") | _ => verdict k end.
Proof. by destruct df. Qed.




Lemma verdict_check_fact_expenses df dt ds :
  verdict (check_fact_expenses df dt ds)
  = if nonempty (set_of (map FactExpenses.date_key df)
                 ∖ set_of (map DimTime.date_key dt))
    then Some "fact_expenses has invalid date_key"
    else if nonempty (set_difference (map FactExpenses.state_code df)
                        (map DimState.state_code ds))
    then Some "fact_expenses references unknown state_code"
    else if existsb (fun r => FactExpenses.expense_amount r <? 0)%float df
    then Some "Negative expense_amount in fact_expenses"
    else None.
Proof.
  unfold check_fact_expenses.
  rewrite !verdict_seq, !verdict_when_fail.
  repeat (match goal with |- context [if ?b then _ else _] => destruct b end; try done).
Qed.

Lemma verdict_check_fact_taxes df dp ds :
  verdict (check_fact_taxes df dp ds)
  = if nonempty (set_difference (map FactTaxes.policy_id df)
                   (map DimPolicies.policy_id dp))
    then Some "fact_taxes references unknown policy_id"
    else if nonempty (set_difference (map FactTaxes.state_code df)
                        (map DimState.state_code ds))
    then Some "fact_taxes references unknown state_code"
    else if existsb (fun r => FactTaxes.tax_amount r <? 0)%float df
    then Some "Negative tax_amount in fact_taxes"
    else None.
Proof.
  unfold check_fact_taxes.
  rewrite !verdict_seq, !verdict_when_fail.
  repeat (match goal with |- context [if ?b then _ else _] => destruct b end; try done).
Qed.


Lemma verdict_Fatal {A} (o : outcome A) :
  is_Some (verdict o) -> exists msg, o = Fatal msg.
Proof. destruct o; [eauto|]. by intros [? [=]]. Qed.

Lemma all_checks_fatal dt ds dc dpr dp fp fc fe ft :
  fact_violation dt ds dpr dp fp fc fe ft ->
  is_Some (verdict (all_checks dt ds dc dpr dp fp fc fe ft)).
Proof.
  unfold fact_violation, all_checks. rewrite !verdict_seq.
  intros H.
  repeat match goal with
         | |- is_Some (match verdict ?c with _ => _ end) =>
             let E := fresh in destruct (verdict c) eqn:E; [by eauto|]
         end.
  destruct H as [[? [=]]|[[? [=]]|[[? [=]]|[? [=]]]]].
Qed.

Lemma main_fatal_of_fact_violation s :
  fact_violation (rows_of (dim_time_csv s)) (rows_of (dim_state_csv s))
                 (rows_of (dim_products_csv s)) (rows_of (dim_policies_csv s))
                 (rows_of (fact_policies_csv s)) (rows_of (fact_claims_csv s))
                 (rows_of (fact_expenses_csv s)) (rows_of (fact_taxes_csv s)) ->
  exists msg, main s = Fatal msg.
Proof.
  intros H.
  destruct (main_missing_or_present s)
    as [[-> _]|(dt & ds & dc & dpr & dp & fp & fc & fe & ft & ->)]; [eauto|].
  cbn [rows_of default dim_time_csv dim_state_csv dim_products_csv dim_policies_csv
       fact_policies_csv fact_claims_csv fact_expenses_csv fact_taxes_csv] in H.
  apply verdict_Fatal. rewrite main_present, !verdict_loaded.
  pose proof (all_checks_fatal dt ds dc dpr dp fp fc fe ft H).
  destruct dt; [by eauto|]. destruct ds; [by eauto|]. destruct dc; [by eauto|].
  destruct dpr; [by eauto|]. destruct dp; [by eauto|]. destruct fp; [by eauto|].
  destruct fc; [by eauto|]. destruct fe; [by eauto|]. destruct ft; [by eauto|].
  done.
Qed.

Ltac first_failing_check H :=
  repeat match goal with
         | |- context [if ?b then _ else _] => destruct b; [by eauto|]
         end;
  exfalso; decompose [or] H; discriminate.



Lemma check_fact_expenses_fatal df dt ds :
  unresolved (map FactExpenses.date_key df) (map DimTime.date_key dt)
  \/ unresolved_text (map FactExpenses.state_code df) (map DimState.state_code ds)
  \/ existsb (fun r => FactExpenses.expense_amount r <? 0)%float df = true ->
  is_Some (verdict (check_fact_expenses df dt ds)).
Proof.
  rewrite verdict_check_fact_expenses, <- !nonempty_unresolved,
    <- !nonempty_unresolved_text.
  intros H. first_failing_check H.
Qed.

Lemma check_fact_taxes_fatal df dp ds :
  unresolved_text (map FactTaxes.policy_id df) (map DimPolicies.policy_id dp)
  \/ unresolved_text (map FactTaxes.state_code df) (map DimState.state_code ds)
  \/ existsb (fun r => FactTaxes.tax_amount r <? 0)%float df = true ->
  is_Some (verdict (check_fact_taxes df dp ds)).
Proof.
  rewrite verdict_check_fact_taxes, <- !nonempty_unresolved_text.
  intros H. first_failing_check H.
Qed.
























(** C6.  A staged fact_expenses table with a row of negative
    expense_amount, or a staged fact_taxes table with a row of negative
    tax_amount, ends the validator in a fatal failure with exit status
    1. *)
Theorem negative_amount_is_fatal s :
  (exists r, r ∈ rows_of (fact_expenses_csv s)
             /\ (FactExpenses.expense_amount r <? 0)%float = true)
  \/ (exists r, r ∈ rows_of (fact_taxes_csv s)
                /\ (FactTaxes.tax_amount r <? 0)%float = true) ->
  exists msg, main s = Fatal msg /\ exit_status (main s) = 1.
Proof.
  intros H.
  destruct (main_fatal_of_fact_violation s) as [msg E]; [|exists msg; by rewrite E].
  unfold fact_violation. destruct H as [(r & Hr & Hneg)|(r & Hr & Hneg)].
  - right; right; left. apply check_fact_expenses_fatal. right; right.
    apply existsb_exists. exists r. by rewrite <- list_elem_of_In.
  - right; right; right. apply check_fact_taxes_fatal. right; right.
    apply existsb_exists. exists r. by rewrite <- list_elem_of_In.
Qed.

End ValidatorFacts.

Section ValidatorExamples.
Import Calendar Pandas Healthcheck Notions Examples.

Lemma negative_amount_is_fatal_witness :
  ((exists r, r ∈ rows_of (fact_expenses_csv staged_negative_expense)
              /\ (FactExpenses.expense_amount r <? 0)%float = true)
   \/ (exists r, r ∈ rows_of (fact_taxes_csv staged_negative_expense)
                 /\ (FactTaxes.tax_amount r <? 0)%float = true))
  /\ exists msg, main staged_negative_expense = Fatal msg
                 /\ exit_status (main staged_negative_expense) = 1.
Proof.
  assert ((exists r, r ∈ rows_of (fact_expenses_csv staged_negative_expense)
                     /\ (FactExpenses.expense_amount r <? 0)%float = true)
          \/ (exists r, r ∈ rows_of (fact_taxes_csv staged_negative_expense)
                        /\ (FactTaxes.tax_amount r <? 0)%float = true)) as H.
  { left. exists (expense "E2" (-10)). split; [|reflexivity].
    simpl. by repeat constructor. }
  split; [exact H|]. exact (negative_amount_is_fatal staged_negative_expense H).
Defined.

(** The week's tables pass without a warning. *)
Example main_staged_week : main staged_week = Passed [] tt.
Proof. vm_compute. reflexivity. Qed.


(** The expense of -10 is reported, not dropped. *)
Example main_staged_negative_expense :
  main staged_negative_expense
  = Fatal "Negative expense_amount in fact_expenses".
Proof. vm_compute. reflexivity. Qed.

(** A claim on an unknown policy is fatal at its first primary key. *)
Example main_staged_orphan_claim :
  primary_key_unresolved staged_orphan_claim
  /\ main staged_orphan_claim = Fatal "fact_claims references unknown policy_id".
Proof.
  split; [|vm_compute; reflexivity].
  do 4 right. left. exists (Some "P9"%string). split.
  - vm_compute. constructor.
  - left. vm_compute. intros H.
    repeat (apply elem_of_cons in H as [[=]|H]). inversion H.
Qed.

(** Expiration keys in 2030 and settlement keys in 2099 only warn, each
    with its count. *)
Example main_staged_secondary_unresolved :
  main (with_secondary_keys (fun _ => 20301231) (fun _ => Some 20991231)
          staged_week)
  = Passed [ExpirationOutsideDimTime 1; SettlementOutsideDimTime 1] tt.
Proof. vm_compute. reflexivity. Qed.

End ValidatorExamples.

(* ===================================================================== *)
(** * Further properties: dates and the time dimension                  *)
(* ===================================================================== *)

Section TimeDimensionExtras.
Import Calendar Pandas Normalizer Healthcheck Notions Examples.

(** The digits of a key are the year, the month and the day. *)
Lemma civil_key_decode c :
  valid_civil c ->
  civil_key c / 10000 = cyear c /\ (civil_key c / 100) mod 100 = cmonth c
  /\ civil_key c mod 100 = cday c.
Proof.
  intros [Hm Hd]. pose proof (days_in_month_bounds (cyear c) (cmonth c)).
  unfold civil_key. destruct c as [y m dd]. simpl in *.
  assert ((y * 10000 + m * 100 + dd) mod 100 = dd) as E1.
  { symmetry. apply (Z.mod_unique_pos _ _ (y * 100 + m)); lia. }
  assert ((y * 10000 + m * 100 + dd) / 100 = y * 100 + m) as E2.
  { symmetry. apply (Z.div_unique_pos _ _ _ dd); lia. }
  assert ((y * 100 + m) mod 100 = m) as E3.
  { symmetry. apply (Z.mod_unique_pos _ _ y); lia. }
  assert ((y * 10000 + m * 100 + dd) / 10000 = y) as E4.
  { symmetry. apply (Z.div_unique_pos _ _ _ (m * 100 + dd)); lia. }
  by rewrite E1, E2, E3, E4.
Qed.

(** X1.  The integer date key (year, month and day written as eight
    digits and read back as a number) orders the days as the calendar
    does: an earlier day has a smaller key, and two days share a key only
    when they are the same day. *)
Theorem date_key_order_preserving a b :
  (a < b <-> date_key a < date_key b)
  /\ (a = b <-> date_key a = date_key b).
Proof.
  split; split.
  - apply date_key_lt.
  - intros H. destruct (Z.lt_trichotomy a b) as [?|[->|Hgt]]; [done|lia|].
    apply date_key_lt in Hgt. lia.
  - by intros ->.
  - apply (inj date_key).
Qed.

(** X2.  A date key decodes to its day: the year is the key divided by
    10000, the month the next two digits, the day of the month the last
    two, and the month and the day are in their calendar bounds. *)
Theorem date_key_round_trip d :
  let k := date_key d in
  civil_of d = Civil (k / 10000) ((k / 100) mod 100) (k mod 100)
  /\ 1 <= (k / 100) mod 100 <= 12
  /\ 1 <= k mod 100 <= 31.
Proof.
  intros k. subst k. unfold date_key.
  destruct (civil_key_decode (civil_of d) (civil_of_valid d)) as (-> & -> & ->).
  destruct (civil_of_valid d) as [Hm Hd].
  pose proof (days_in_month_bounds (cyear (civil_of d)) (cmonth (civil_of d))).
  split; [by destruct (civil_of d)|lia].
Qed.

Lemma weekday_bounds d : 0 <= weekday d <= 6.
Proof. unfold weekday. pose proof (Z.mod_pos_bound (d + 3) 7). lia. Qed.

(** A time dimension that was built spans the observed dates. *)
Lemma build_dim_time_Ok_range policies claims dim :
  build_dim_time policies claims = Ok dim ->
  exists lo hi,
    dim = map time_row (date_range lo hi)
    /\ Some lo ∈ observed_dates policies claims
    /\ Some hi ∈ observed_dates policies claims
    /\ forall d, Some d ∈ observed_dates policies claims -> lo <= d <= hi.
Proof.
  intros H.
  destruct (decide (Forall (fun p => RawPolicies.effective_date p = None) policies))
    as [Hall|Hex].
  - rewrite Forall_forall in Hall.
    by rewrite (build_dim_time_NaT policies claims Hall) in H.
  - apply not_Forall_Exists in Hex; [|intros p; apply _].
    apply Exists_exists in Hex as (p & Hp & Hne).
    destruct (build_dim_time_range policies claims) as (lo & hi & E & ?); [by eauto|].
    exists lo, hi. rewrite E in H. injection H as <-. done.
Qed.

(** X3.  build_dim_time returns a table exactly when some policy has an
    effective date that parses; the table then has one row per day from
    the least to the greatest observed date.  It never ends in another way
    than through the refused date range. *)
Theorem build_dim_time_returns_iff policies claims :
  ((exists dim, build_dim_time policies claims = Ok dim)
   <-> exists p, p ∈ policies /\ RawPolicies.effective_date p <> None)
  /\ (forall dim, build_dim_time policies claims = Ok dim ->
        covers_observed_range policies claims dim)
  /\ (forall e, build_dim_time policies claims = Raise e -> e = EmptyDateRangeError).
Proof.
  assert (forall dim, build_dim_time policies claims = Ok dim ->
            exists p, p ∈ policies /\ RawPolicies.effective_date p <> None) as Hex.
  { intros dim H.
    destruct (decide (Forall (fun p => RawPolicies.effective_date p = None) policies))
      as [Hall|Hn].
    - rewrite Forall_forall in Hall.
      by rewrite (build_dim_time_NaT policies claims Hall) in H.
    - apply not_Forall_Exists in Hn; [|intros p; apply _].
      apply Exists_exists in Hn as (p & Hp & Hne). eauto. }
  split; [|split].
  - split.
    + intros (dim & H). by eapply Hex.
    + intros H. destruct (build_dim_time_contiguous policies claims H) as (dim & ? & _).
      eauto.
  - intros dim H.
    destruct (build_dim_time_contiguous policies claims (Hex dim H)) as (dim' & E & Hc).
    rewrite E in H. by injection H as <-.
  - unfold build_dim_time. intros e.
    destruct (py_min _) as [lo|]; [destruct (py_max _) as [hi|]|]; congruence.
Qed.

(** The week's policies and claims give a time dimension. *)
Example build_dim_time_week :
  build_dim_time policies_week claims_week
  = Ok (rows_or_nil (build_dim_time policies_week claims_week)).
Proof. vm_compute. reflexivity. Qed.

(** X4.  In every row of the time dimension the derived columns agree
    with the day of the row: year, month and key are those of full_date,
    which is a day that exists; the quarter is the month's; month_name is
    the month's name; day_of_week runs from 1 (Monday) to 7, and
    is_weekend holds exactly on days 6 and 7. *)
Theorem build_dim_time_row_attributes policies claims dim :
  build_dim_time policies claims = Ok dim ->
  Forall time_row_consistent dim.
Proof.
  unfold build_dim_time.
  destruct (py_min _) as [lo|]; [|done]. destruct (py_max _) as [hi|]; [|done].
  intros [= <-]. apply Forall_forall. intros r Hr.
  apply list_elem_of_fmap in Hr as (d & -> & _).
  unfold time_row_consistent, time_row.
  cbn [DimTime.full_date DimTime.year DimTime.month
    DimTime.date_key DimTime.quarter DimTime.month_name DimTime.day_of_week
    DimTime.is_weekend].
  pose proof (civil_of_valid d) as Hv. destruct Hv as [Hm Hd].
  pose proof (weekday_bounds d).
  split; [done|]. split; [done|]. split; [done|]. split; [done|].
  unfold quarter.
  split; [|split]; [..|split; [done|split; [lia|]]].
  - pose proof (Z.div_le_mono 0 (cmonth (civil_of d) - 1) 3 ltac:(lia) ltac:(lia)).
    pose proof (Z.div_le_mono (cmonth (civil_of d) - 1) 11 3 ltac:(lia) ltac:(lia)).
    change (0 / 3) with 0 in *. change (11 / 3) with 3 in *. lia.
  - pose proof (Z.div_mod (cmonth (civil_of d) - 1) 3 ltac:(lia)).
    pose proof (Z.mod_pos_bound (cmonth (civil_of d) - 1) 3 ltac:(lia)). lia.
  - rewrite Z.leb_le. lia.
Qed.

Lemma build_dim_time_row_attributes_witness :
  build_dim_time policies_week claims_week
  = Ok (rows_or_nil (build_dim_time policies_week claims_week))
  /\ Forall time_row_consistent
       (rows_or_nil (build_dim_time policies_week claims_week)).
Proof.
  split; [exact build_dim_time_week|].
  exact (build_dim_time_row_attributes policies_week claims_week _
           build_dim_time_week).
Defined.

(** X5.  The rows of the time dimension are consecutive days: each row
    is the day after the row before it, with the next day of the week, so
    the keys grow strictly along the table and check_dim_time accepts
    it. *)
Theorem build_dim_time_sorted policies claims dim :
  build_dim_time policies claims = Ok dim ->
  one_day_per_row dim
  /\ StronglySorted Z.lt (map DimTime.date_key dim)
  /\ check_dim_time dim = Passed [] tt.
Proof.
  unfold build_dim_time.
  destruct (py_min _) as [lo|]; [|done]. destruct (py_max _) as [hi|]; [|done].
  intros [= <-].
  assert (StronglySorted Z.lt (map DimTime.date_key (map time_row (date_range lo hi))))
    as Hsorted.
  { rewrite time_row_date_key. unfold date_range. rewrite map_map.
    generalize (Z.to_nat (hi + 1 - lo)) as n. intros n.
    generalize 0%nat as k.
    induction n as [|n IH]; intros k; simpl; constructor; [apply IH|].
    apply Forall_forall. intros x Hx. apply list_elem_of_fmap in Hx as (j & -> & Hj).
    apply elem_of_seq in Hj. apply date_key_lt. lia. }
  split; [|split; [done|]].
  - intros i r r' Hi Hi'.
    rewrite list_lookup_fmap in Hi, Hi'.
    destruct (date_range lo hi !! i) as [d|] eqn:Ed; [|done].
    destruct (date_range lo hi !! S i) as [d'|] eqn:Ed'; [|done].
    simpl in Hi, Hi'. injection Hi as <-. injection Hi' as <-.
    assert (S i < Z.to_nat (hi + 1 - lo))%nat as Hlt.
    { apply lookup_lt_Some in Ed'. by rewrite date_range_length in Ed'. }
    rewrite date_range_lookup in Ed, Ed' by lia.
    injection Ed as <-. injection Ed' as <-.
    replace (lo + Z.of_nat (S i)) with (lo + Z.of_nat i + 1) by lia.
    unfold time_row. cbn [DimTime.date_key DimTime.full_date DimTime.day_of_week].
    split; [apply date_key_succ|]. split; [apply civil_of_succ|].
    unfold weekday.
    replace (lo + Z.of_nat i + 1 + 3) with ((lo + Z.of_nat i + 3) + 1) by lia.
    pose proof (Z.mod_pos_bound (lo + Z.of_nat i + 3) 7 ltac:(lia)).
    rewrite (Z.add_mod (lo + Z.of_nat i + 3) 1 7) by lia.
    change (1 mod 7) with 1.
    reflexivity.
  - unfold check_dim_time, has_duplicates, when.
    rewrite bool_decide_eq_false_2; [done|]. intros H. apply H.
    clear H. induction Hsorted as [|x l Hs IH Hall]; constructor; [|done].
    intros Hx. rewrite Forall_forall in Hall. specialize (Hall _ Hx). lia.
Qed.

Lemma build_dim_time_sorted_witness :
  build_dim_time policies_week claims_week
  = Ok (rows_or_nil (build_dim_time policies_week claims_week))
  /\ one_day_per_row (rows_or_nil (build_dim_time policies_week claims_week))
  /\ StronglySorted Z.lt
       (map DimTime.date_key (rows_or_nil (build_dim_time policies_week claims_week)))
  /\ check_dim_time (rows_or_nil (build_dim_time policies_week claims_week))
     = Passed [] tt.
Proof.
  split; [exact build_dim_time_week|].
  exact (build_dim_time_sorted policies_week claims_week _ build_dim_time_week).
Defined.

End TimeDimensionExtras.

(* ===================================================================== *)
(** * Further properties: the dimensions                                *)
(* ===================================================================== *)

Section DimensionExtras.
Import Calendar Pandas Normalizer Healthcheck Notions Examples.

(** [drop_duplicates] keeps exactly the first row of every key, in the
    order of the table. *)
Lemma elem_of_drop_duplicates_from {A K} `{EqDecision K} (key : A -> K) l :
  forall seen x,
    x ∈ drop_duplicates_from key seen l
    <-> (key x ∉ seen) /\ first_with_key key l x.
Proof.
  unfold first_with_key.
  induction l as [|y l IH]; intros seen x; simpl.
  - rewrite elem_of_nil. split; [done|]. by intros (_ & i & Hi & _).
  - destruct (decide (key y ∈ seen)) as [Hs|Hs].
    + rewrite IH. split.
      * intros (Hx & i & Hi & Hfirst). split; [done|]. exists (S i).
        split; [done|]. intros [|j] z Hj Hz; simpl in Hz.
        -- injection Hz as <-. by intros E; rewrite E in Hs.
        -- apply (Hfirst j); [lia|done].
      * intros (Hx & [|i] & Hi & Hfirst); simpl in Hi.
        -- injection Hi as <-. done.
        -- split; [done|]. exists i. split; [done|].
           intros j z Hj Hz. apply (Hfirst (S j)); [lia|done].
    + rewrite elem_of_cons, IH. split.
      * intros [->|(Hx & i & Hi & Hfirst)].
        -- split; [done|]. exists 0%nat. split; [done|]. intros; lia.
        -- rewrite not_elem_of_cons in Hx. destruct Hx as [Hne Hx].
           split; [done|]. exists (S i). split; [done|].
           intros [|j] z Hj Hz; simpl in Hz.
           ++ injection Hz as <-. done.
           ++ apply (Hfirst j); [lia|done].
      * intros (Hx & [|i] & Hi & Hfirst); simpl in Hi.
        -- injection Hi as <-. by left.
        -- right. split.
           ++ rewrite not_elem_of_cons. split; [|done].
              intros E. by apply (Hfirst 0%nat y); [lia|done|].
           ++ exists i. split; [done|].
              intros j z Hj Hz. apply (Hfirst (S j)); [lia|done].
Qed.

Lemma elem_of_drop_duplicates {A K} `{EqDecision K} (key : A -> K) l x :
  x ∈ drop_duplicates key l <-> first_with_key key l x.
Proof.
  unfold drop_duplicates. rewrite elem_of_drop_duplicates_from.
  pose proof (not_elem_of_nil (key x)). tauto.
Qed.

Lemma drop_duplicates_from_sublist {A K} `{EqDecision K} (key : A -> K) l :
  forall seen, drop_duplicates_from key seen l `sublist_of` l.
Proof.
  induction l as [|y l IH]; intros seen; simpl; [done|].
  destruct (decide (key y ∈ seen)).
  - by apply sublist_cons.
  - by apply sublist_skip.
Qed.

Lemma drop_duplicates_sublist {A K} `{EqDecision K} (key : A -> K) l :
  drop_duplicates key l `sublist_of` l.
Proof. apply drop_duplicates_from_sublist. Qed.

(** The order of [sort_values] is total and transitive. *)
#[local] Instance cell_leb_total {A} (key : A -> cell) :
  Total (fun r1 r2 => Is_true (cell_leb (key r1) (key r2))).
Proof.
  intros r1 r2. unfold cell_leb.
  destruct (key r1) as [a|], (key r2) as [b|]; simpl; auto.
  destruct (String.leb_total a b) as [->| ->]; simpl; auto.
Qed.

#[local] Instance cell_leb_trans {A} (key : A -> cell) :
  Transitive (fun r1 r2 => Is_true (cell_leb (key r1) (key r2))).
Proof.
  intros r1 r2 r3. unfold cell_leb.
  destruct (key r1) as [a|], (key r2) as [b|], (key r3) as [c|]; simpl; auto.
  - intros H1 H2.
    exact (transitivity (R:=String.le) H1 H2).
  - done.
Qed.

(** X6.  The state dimension holds each (state_code, region_code,
    market_tier) triple of the clients exactly once, nothing else, and is
    sorted by state_code (missing codes last). *)
Theorem build_dim_state_sorted_distinct clients :
  NoDup (build_dim_state clients)
  /\ (forall r, r ∈ build_dim_state clients
                <-> exists c, c ∈ clients /\ r = state_of_client c)
  /\ StronglySorted
       (fun r1 r2 => cell_leb (DimState.state_code r1) (DimState.state_code r2) = true)
       (build_dim_state clients).
Proof.
  split; [apply build_dim_state_NoDup|]. split.
  - intros r. rewrite elem_of_build_dim_state, list_elem_of_fmap.
    split; intros (c & ? & ?); eauto.
  - unfold build_dim_state, sort_values.
    pose proof (StronglySorted_merge_sort
                  (fun r1 r2 => Is_true (cell_leb (DimState.state_code r1)
                                                  (DimState.state_code r2)))
                  (drop_duplicates state_triple (map state_of_client clients)))
      as H.
    induction H as [|r l Hs IH Hall]; constructor; [done|].
    eapply Forall_impl; [exact Hall|]. intros r' Hr'. by apply Is_true_true.
Qed.


Lemma build_dim_state_codes clients k :
  k ∈ map DimState.state_code (build_dim_state clients)
  <-> k ∈ map RawClients.state_code clients.
Proof.
  rewrite !list_elem_of_fmap. split.
  - intros (r & -> & Hr). apply elem_of_build_dim_state in Hr.
    apply list_elem_of_fmap in Hr as (c & -> & Hc). eauto.
  - intros (c & -> & Hc). exists (state_of_client c). split; [done|].
    apply elem_of_build_dim_state. by apply list_elem_of_fmap_2.
Qed.

(** Whether a key is resolved depends on the keys the dimension column
    holds, not on their order or number. *)
Lemma unresolved_text_same_keys a b b' :
  (forall k, k ∈ b <-> k ∈ b') -> unresolved_text a b <-> unresolved_text a b'.
Proof.
  assert (forall b b', (forall k, k ∈ b <-> k ∈ b') ->
            unresolved_text a b -> unresolved_text a b') as Haux.
  { clear. intros b b' Hb (k & Hk & H). exists k. split; [done|].
    destruct H as [H|(-> & [H|H])].
    - left. by rewrite <- Hb.
    - right. split; [done|]. by left.
    - right. split; [done|]. right. intros k' Hk'. apply H. by apply Hb. }
  intros Hb. split; apply Haux; [done|]. intros k. by rewrite Hb.
Qed.

(** X7.  The client dimension keeps, for every client_id, the first row
    of the client table that carries it, in table order, so its
    client_id column has no duplicate.  Against the state dimension built
    from the same clients it passes check_dim_clients exactly when some
    kept client has a state_code (or there is no client): a state_code
    column with no text at all is read as numbers, whose missing values
    resolve nowhere, and the check then fails with the unknown state_code
    message. *)
Theorem build_dim_clients_first_wins clients :
  NoDup (map DimClients.client_id (build_dim_clients clients))
  /\ (forall r, r ∈ build_dim_clients clients
        <-> exists c, first_with_key RawClients.client_id clients c
                      /\ r = client_dim_row c)
  /\ build_dim_clients clients `sublist_of` map client_dim_row clients
  /\ (check_dim_clients (build_dim_clients clients) (build_dim_state clients)
      = Passed [] tt
      <-> clients = []
          \/ exists c, first_with_key RawClients.client_id clients c
                       /\ RawClients.state_code c <> None)
  /\ (check_dim_clients (build_dim_clients clients) (build_dim_state clients)
      = Passed [] tt
      \/ check_dim_clients (build_dim_clients clients) (build_dim_state clients)
         = Fatal "dim_clients references unknown state_code").
Proof.
  assert (NoDup (map DimClients.client_id (build_dim_clients clients))) as Hnd.
  { unfold build_dim_clients. rewrite map_map.
    apply (drop_duplicates_NoDup RawClients.client_id). }
  assert (forall r, r ∈ build_dim_clients clients
            <-> exists c, first_with_key RawClients.client_id clients c
                          /\ r = client_dim_row c) as Hrows.
  { intros r. unfold build_dim_clients. rewrite list_elem_of_fmap.
    split; intros (c & H1 & H2).
    - exists c. by rewrite <- elem_of_drop_duplicates.
    - exists c. by rewrite elem_of_drop_duplicates. }
  split; [done|]. split; [done|]. split.
  { unfold build_dim_clients.
    apply (fmap_sublist client_dim_row), drop_duplicates_sublist. }
  assert (unresolved_text (map DimClients.state_code (build_dim_clients clients))
                          (map DimState.state_code (build_dim_state clients))
          <-> clients <> []
              /\ forall c, first_with_key RawClients.client_id clients c ->
                   RawClients.state_code c = None) as Hun.
  { rewrite (unresolved_text_same_keys _ _ (map RawClients.state_code clients))
      by apply build_dim_state_codes.
    split.
    - intros (k & Hk & H).
      apply list_elem_of_fmap in Hk as (r & -> & Hr).
      pose proof Hr as Hr'. apply Hrows in Hr' as (c & Hc & ->).
      cbn [client_dim_row DimClients.state_code] in H.
      assert (c ∈ clients) as Hin.
      { destruct Hc as (i & Hi & _). by eapply list_elem_of_lookup_2. }
      split; [by intros ->; apply elem_of_nil in Hin|].
      destruct H as [H|(_ & [H|H])].
      + exfalso. apply H. by apply list_elem_of_fmap_2.
      + intros c' Hc'. apply (H (RawClients.state_code c')).
        apply list_elem_of_fmap. exists (client_dim_row c'). split; [done|].
        apply Hrows. eauto.
      + intros c' Hc'. apply H. apply list_elem_of_fmap_2.
        destruct Hc' as (i & Hi & _). by eapply list_elem_of_lookup_2.
    - intros (Hne & Hall). destruct clients as [|c0 cs]; [done|].
      assert (first_with_key RawClients.client_id (c0 :: cs) c0) as H0.
      { exists 0%nat. split; [done|]. intros; lia. }
      exists None. split.
      + apply list_elem_of_fmap. exists (client_dim_row c0).
        split; [symmetry; by apply Hall|]. apply Hrows. eauto.
      + right. split; [done|]. left. intros k Hk.
        apply list_elem_of_fmap in Hk as (r & -> & Hr).
        apply Hrows in Hr as (c & Hc & ->). by apply Hall. }
  assert (check_dim_clients (build_dim_clients clients) (build_dim_state clients)
          = if nonempty (set_difference
                           (map DimClients.state_code (build_dim_clients clients))
                           (map DimState.state_code (build_dim_state clients)))
            then Fatal "dim_clients references unknown state_code"
            else Passed [] tt) as ->.
  { unfold check_dim_clients, has_duplicates, when, ok, fail.
    rewrite bool_decide_eq_false_2 by (by intros H; apply H).
    cbv iota. rewrite outcome_left_id. by destruct (nonempty _). }
  destruct (nonempty _) eqn:E.
  - apply nonempty_unresolved_text, Hun in E as (Hne & Hall).
    split; [|by right]. split; [done|].
    intros [->|(c & Hc & Hsome)]; [done|]. by apply Hall in Hc.
  - split; [|by left]. split; [|done]. intros _.
    destruct clients as [|c0 cs]; [by left|]. right.
    destruct (decide (Exists (fun r => DimClients.state_code r <> None)
                        (build_dim_clients (c0 :: cs)))) as [Hex|Hno].
    + apply Exists_exists in Hex as (r & Hr & Hsome).
      apply Hrows in Hr as (c & Hc & ->). eauto.
    + exfalso. apply not_true_iff_false in E. apply E.
      apply nonempty_unresolved_text, Hun. split; [done|].
      intros c Hc. destruct (RawClients.state_code c) eqn:Es; [|done].
      exfalso. apply Hno, Exists_exists. exists (client_dim_row c).
      split; [apply Hrows; eauto|]. cbn [client_dim_row DimClients.state_code].
      by rewrite Es.
Qed.



End DimensionExtras.

(* ===================================================================== *)
(** * Further properties: the product key                               *)
(* ===================================================================== *)

Section ProductKeyExtras.
Import Calendar Pandas Normalizer Healthcheck Notions Examples.
Local Open Scope string_scope.

(** The two character maps of the key, composed. *)
Lemma key_char_no_space c :
  Ascii.eqb (space_to_underscore (upper_char c)) " " = false.
Proof. destruct c as [[] [] [] [] [] [] [] []]; reflexivity. Qed.

Lemma key_char_upper c :
  upper_char (space_to_underscore (upper_char c)) = space_to_underscore (upper_char c).
Proof. destruct c as [[] [] [] [] [] [] [] []]; reflexivity. Qed.

Lemma key_char_replace c :
  space_to_underscore (space_to_underscore c) = space_to_underscore c.
Proof. destruct c as [[] [] [] [] [] [] [] []]; reflexivity. Qed.

Lemma key_char_ascii c :
  (N_of_ascii (space_to_underscore (upper_char c)) <? 128)%N
  = (N_of_ascii c <? 128)%N.
Proof. destruct c as [[] [] [] [] [] [] [] []]; reflexivity. Qed.

(** What [key_form] does to a text, character by character. *)
Lemma key_form_chars s :
  has_char " " (key_form s) = false
  /\ str_upper (key_form s) = key_form s
  /\ str_replace_space (key_form s) = key_form s
  /\ String.length (key_form s) = String.length s
  /\ ascii_text (key_form s) = ascii_text s.
Proof.
  unfold key_form, str_upper, str_replace_space.
  induction s as [|c s (IH1 & IH2 & IH3 & IH4 & IH5)]; [done|].
  cbn [map_chars has_char String.length ascii_text].
  rewrite key_char_no_space, key_char_upper, key_char_replace, key_char_ascii,
    IH1, IH2, IH3, IH4, IH5.
  done.
Qed.

Lemma key_form_idem s : key_form (key_form s) = key_form s.
Proof.
  destruct (key_form_chars s) as (_ & H2 & H3 & _).
  unfold key_form at 1. by rewrite H2, H3.
Qed.

Lemma derive_product_key_key_form l p :
  derive_product_key (Some l) (Some p) = Some (key_form (l +:+ String "_" p)).
Proof.
  unfold derive_product_key, cell_add, cell_str, key_form.
  cbn [fmap option_fmap option_map]. by rewrite append_assoc'.
Qed.

Lemma length_append (a b : string) :
  String.length (a +:+ b) = (String.length a + String.length b)%nat.
Proof.
  induction a as [|c a IH]; [by rewrite append_nil_l|].
  rewrite append_cons. simpl. by rewrite IH.
Qed.

Lemma ascii_text_append (a b : string) :
  ascii_text (a +:+ b) = ascii_text a && ascii_text b.
Proof.
  induction a as [|c a IH]; [by rewrite append_nil_l|].
  rewrite append_cons. simpl. by rewrite IH, andb_assoc.
Qed.

(** X10.  The product key is missing exactly when line_of_business or
    plan_name is missing.  For two components of ASCII text it is as long
    as the two components plus one, is ASCII text, holds no space, is
    unchanged by upper-casing and by the space replacement, and deriving
    it again from the normalised components gives the same key. *)
Theorem derive_product_key_normal_form :
  (forall l p, derive_product_key l p = None <-> l = None \/ p = None)
  /\ (forall l p k,
        ascii_text l = true -> ascii_text p = true ->
        derive_product_key (Some l) (Some p) = Some k ->
        String.length k = (String.length l + 1 + String.length p)%nat
        /\ ascii_text k = true
        /\ has_char " " k = false
        /\ str_upper k = k
        /\ str_replace_space k = k
        /\ derive_product_key (Some (key_form l)) (Some (key_form p)) = Some k).
Proof.
  split.
  - intros [l|] [p|]; unfold derive_product_key, cell_add, cell_str;
      cbn [fmap option_fmap option_map]; split; try done; auto.
    by intros [|].
  - intros l p k Hl Hp. rewrite derive_product_key_key_form. intros [= <-].
    destruct (key_form_chars (l +:+ String "_" p)) as (H1 & H2 & H3 & H4 & H5).
    split; [|split; [|split; [done|split; [done|split; [done|]]]]].
    + rewrite H4, length_append. simpl. lia.
    + rewrite H5, ascii_text_append. simpl. by rewrite Hl, Hp.
    + rewrite derive_product_key_Some, !key_form_idem.
      by rewrite <- derive_product_key_Some, derive_product_key_key_form.
Qed.

End ProductKeyExtras.

(* ===================================================================== *)
(** * Further properties: the fact tables                               *)
(* ===================================================================== *)

Section FactExtras.
Import Calendar Pandas Normalizer Healthcheck Notions Examples.

(** [traverse] returns exactly when the function returns on every row,
    and raises what the function raised on some row. *)
Lemma traverse_Ok_iff {E A B} (f : A -> result E B) l :
  (exists ys, traverse f l = Ok ys) <-> forall x, x ∈ l -> exists y, f x = Ok y.
Proof.
  split.
  - intros (ys & H) x Hx. apply traverse_Forall2 in H.
    apply list_elem_of_lookup in Hx as (i & Hi).
    destruct (Forall2_lookup_l _ _ _ _ _ H Hi) as (y & _ & Hy). eauto.
  - apply traverse_returns.
Qed.


(** A fact row is built exactly when its dates parse. *)
Lemma strict_date_Ok d : (exists x, strict_date d = Ok x) <-> d <> None.
Proof. destruct d; simpl; split; try done; eauto. by intros [? ?]. Qed.






Lemma fact_claim_row_ids c p r :
  fact_claim_row (c, p) = Ok r ->
  FactClaims.claim_id r = RawClaims.claim_id c
  /\ FactClaims.policy_id r = RawClaims.policy_id c
  /\ FactClaims.settlement_date_key r = None.
Proof.
  unfold fact_claim_row.
  destruct (RawClaims.incident_date c); [|done].
  destruct (RawClaims.report_date c); [|done].
  simpl. by intros [= <-].
Qed.









Lemma fact_expense_row_Ok e :
  (exists r, fact_expense_row e = Ok r) <-> RawExpenses.expense_month e <> None.
Proof.
  unfold fact_expense_row.
  destruct (RawExpenses.expense_month e); simpl; split; try done; eauto.
  by intros [? ?].
Qed.

(** The key of the first day of the month of [d]. *)
Lemma month_start_key_decode d :
  month_start_key d / 100 = date_key d / 100
  /\ month_start_key d mod 100 = 1
  /\ month_start_key d = date_key d - (cday (civil_of d) - 1)
  /\ month_start_key d <= date_key d.
Proof.
  unfold month_start_key, date_key, civil_key.
  destruct (civil_of_valid d) as [Hm Hd].
  pose proof (days_in_month_bounds (cyear (civil_of d)) (cmonth (civil_of d))).
  destruct (civil_of d) as [y m dd]. simpl in *.
  assert ((y * 10000 + m * 100 + 1) / 100 = y * 100 + m) as ->.
  { symmetry. apply (Z.div_unique_pos _ _ _ 1); lia. }
  assert ((y * 10000 + m * 100 + dd) / 100 = y * 100 + m) as ->.
  { symmetry. apply (Z.div_unique_pos _ _ _ dd); lia. }
  assert ((y * 10000 + m * 100 + 1) mod 100 = 1) as ->.
  { symmetry. apply (Z.mod_unique_pos _ _ (y * 100 + m)); lia. }
  repeat split; lia.
Qed.

(** X14.  build_fact_expenses returns exactly when every expense_month
    parses.  Each row then keeps its expense (id, state, amount) and gets
    the key of the first day of the expense's month: the year and month
    digits of the date, day 01. *)
Theorem build_fact_expenses_month_start expenses :
  ((exists rows, build_fact_expenses expenses = Ok rows)
   <-> forall e, e ∈ expenses -> RawExpenses.expense_month e <> None)
  /\ (forall rows, build_fact_expenses expenses = Ok rows ->
        Forall2 (fun e r =>
                   exists d, RawExpenses.expense_month e = Some d
                     /\ FactExpenses.date_key r / 100 = date_key d / 100
                     /\ FactExpenses.date_key r mod 100 = 1
                     /\ FactExpenses.date_key r <= date_key d
                     /\ FactExpenses.expense_id r = RawExpenses.expense_id e
                     /\ FactExpenses.state_code r = RawExpenses.state_code e
                     /\ FactExpenses.expense_amount r = RawExpenses.expense_amount e)
                expenses rows).
Proof.
  unfold build_fact_expenses. split.
  - rewrite traverse_Ok_iff. split; intros H e He; by apply fact_expense_row_Ok, H.
  - intros rows H. apply traverse_Forall2 in H.
    eapply Forall2_impl; [exact H|]. intros e r E. unfold fact_expense_row in E.
    destruct (RawExpenses.expense_month e) as [d|]; [|done].
    simpl in E. injection E as <-. exists d.
    cbn [FactExpenses.date_key FactExpenses.expense_id FactExpenses.state_code
         FactExpenses.expense_amount].
    destruct (month_start_key_decode d) as (? & ? & _ & ?). done.
Qed.

(** X15.  The time dimension starts at the least observed policy or
    claim date, not at the start of its month.  An expense whose month
    starts before every observed date gets a date key the time dimension
    does not hold, and check_fact_expenses rejects the expense table. *)
Theorem expense_month_before_time_dimension policies claims expenses dim rows ds :
  build_dim_time policies claims = Ok dim ->
  build_fact_expenses expenses = Ok rows ->
  (exists e d, e ∈ expenses /\ RawExpenses.expense_month e = Some d
     /\ forall x, Some x ∈ observed_dates policies claims ->
          month_start_key d < date_key x) ->
  check_fact_expenses rows dim ds = Fatal "fact_expenses has invalid date_key".
Proof.
  intros Hdim Hrows (e & d & He & Hd & Hbefore).
  apply build_dim_time_Ok_range in Hdim as (lo & hi & -> & Hlo & _ & _).
  unfold build_fact_expenses in Hrows. apply traverse_Forall2 in Hrows.
  apply list_elem_of_lookup in He as (i & Hi).
  destruct (Forall2_lookup_l _ _ _ _ _ Hrows Hi) as (r & Hr & E).
  unfold fact_expense_row in E. rewrite Hd in E. simpl in E. injection E as <-.
  unfold check_fact_expenses.
  assert (nonempty (set_of (map FactExpenses.date_key rows)
                    ∖ set_of (map DimTime.date_key (map time_row (date_range lo hi))))
          = true) as ->; [|done].
  apply nonempty_unresolved. exists (month_start_key d). split.
  - apply list_elem_of_lookup_2 in Hr.
    apply list_elem_of_fmap. eexists. split; [|exact Hr]. done.
  - rewrite time_row_date_key. intros Hin.
    apply list_elem_of_fmap in Hin as (x & Ex & Hx).
    apply elem_of_date_range in Hx.
    specialize (Hbefore lo Hlo). pose proof (date_key_le lo x ltac:(lia)). lia.
Qed.

Lemma resolved_count `{Countable K} (a b : list K) :
  ~ unresolved a b -> unresolved_count a b = 0%nat.
Proof.
  intros Hn. destruct (decide (unresolved_count a b = 0%nat)) as [|Hne]; [done|].
  exfalso. apply Hn, nonempty_unresolved.
  rewrite nonempty_count. by apply bool_decide_eq_true_2.
Qed.

(** X16.  On tables built by the normalizer from the same policies and
    claims, the two advisory date checks never warn: every expiration
    key is in the time dimension, and no claim has a settlement key. *)
Theorem normalizer_output_never_warns policies claims :
  forall dim fp fc,
    build_dim_time policies claims = Ok dim ->
    build_fact_policies policies = Ok fp ->
    build_fact_claims claims policies = Ok fc ->
    unresolved_count (map FactPolicies.expiration_date_key fp)
                     (map DimTime.date_key dim) = 0%nat
    /\ omap FactClaims.settlement_date_key fc = []
    /\ forall s, dim_time_csv s = Some dim ->
         fact_policies_csv s = Some fp ->
         fact_claims_csv s = Some fc ->
         expiration_warning s = [] /\ settlement_warning s = [].
Proof.
  intros dim fp fc Hdim Hfp Hfc.
  apply build_dim_time_Ok_range in Hdim as (lo & hi & -> & _ & _ & Hrange).
  assert (unresolved_count (map FactPolicies.expiration_date_key fp)
            (map DimTime.date_key (map time_row (date_range lo hi))) = 0%nat) as E1.
  { apply resolved_count. intros (k & Hk & Hnk). apply Hnk. clear Hnk.
    apply list_elem_of_fmap in Hk as (r & -> & Hr).
    unfold build_fact_policies in Hfp. apply traverse_Forall2 in Hfp.
    apply list_elem_of_lookup in Hr as (i & Hi).
    destruct (Forall2_lookup_r _ _ _ _ _ Hfp Hi) as (p & Hp & E).
    unfold fact_policy_row in E.
    destruct (RawPolicies.effective_date p) as [eff|]; [|done].
    destruct (RawPolicies.expiration_date p) as [exp|] eqn:Eexp; [|done].
    simpl in E. injection E as <-. cbn [FactPolicies.expiration_date_key].
    rewrite time_row_date_key. apply list_elem_of_fmap_2, elem_of_date_range, Hrange.
    unfold observed_dates. rewrite !elem_of_app. right. left.
    apply list_elem_of_fmap. exists p. split; [done|].
    by eapply list_elem_of_lookup_2. }
  assert (omap FactClaims.settlement_date_key fc = []) as E2.
  { unfold build_fact_claims in Hfc. apply traverse_Forall2 in Hfc.
    induction Hfc as [|[c b] r ps rs Hpr _ IH]; [done|]. simpl.
    apply fact_claim_row_ids in Hpr as (_ & _ & ->). done. }
  split; [done|]. split; [done|].
  intros s Hs1 Hs2 Hs3. unfold expiration_warning, settlement_warning.
  rewrite Hs1, Hs2, Hs3. simpl. rewrite E1, E2. done.
Qed.

Lemma expense_month_before_time_dimension_witness :
  build_dim_time policies_mid_june claims_week
  = Ok (rows_or_nil (build_dim_time policies_mid_june claims_week))
  /\ build_fact_expenses expenses_june
     = Ok (rows_or_nil (build_fact_expenses expenses_june))
  /\ (exists e d, e ∈ expenses_june /\ RawExpenses.expense_month e = Some d
        /\ forall x, Some x ∈ observed_dates policies_mid_june claims_week ->
             month_start_key d < date_key x)
  /\ check_fact_expenses (rows_or_nil (build_fact_expenses expenses_june))
       (rows_or_nil (build_dim_time policies_mid_june claims_week)) []
     = Fatal "fact_expenses has invalid date_key".
Proof.
  assert (build_dim_time policies_mid_june claims_week
          = Ok (rows_or_nil (build_dim_time policies_mid_june claims_week))) as H1
    by (vm_compute; reflexivity).
  assert (build_fact_expenses expenses_june
          = Ok (rows_or_nil (build_fact_expenses expenses_june))) as H2
    by reflexivity.
  assert (exists e d, e ∈ expenses_june /\ RawExpenses.expense_month e = Some d
            /\ forall x, Some x ∈ observed_dates policies_mid_june claims_week ->
                 month_start_key d < date_key x) as H3.
  { exists (raw_expense "E1" (Some (ymd 2024 6 4)) 120.5), (ymd 2024 6 4).
    split; [by left|]. split; [reflexivity|].
    intros x Hx. vm_compute in Hx.
    repeat (apply elem_of_cons in Hx as [[= ->]|Hx]; [vm_compute; reflexivity|]).
    inversion Hx. }
  split; [exact H1|]. split; [exact H2|]. split; [exact H3|].
  exact (expense_month_before_time_dimension policies_mid_june claims_week
           expenses_june _ _ [] H1 H2 H3).
Defined.

Lemma normalizer_output_never_warns_witness :
  build_dim_time policies_week claims_week
  = Ok (rows_or_nil (build_dim_time policies_week claims_week))
  /\ build_fact_policies policies_week
     = Ok (rows_or_nil (build_fact_policies policies_week))
  /\ build_fact_claims claims_week policies_week
     = Ok (rows_or_nil (build_fact_claims claims_week policies_week))
  /\ expiration_warning staged_week = []
  /\ settlement_warning staged_week = [].
Proof.
  assert (build_fact_policies policies_week
          = Ok (rows_or_nil (build_fact_policies policies_week))) as H2
    by reflexivity.
  assert (build_fact_claims claims_week policies_week
          = Ok (rows_or_nil (build_fact_claims claims_week policies_week))) as H3
    by reflexivity.
  split; [exact build_dim_time_week|]. split; [exact H2|]. split; [exact H3|].
  exact (proj2 (proj2 (normalizer_output_never_warns policies_week claims_week
                         _ _ _ build_dim_time_week H2 H3))
           staged_week eq_refl eq_refl eq_refl).
Defined.

End FactExtras.

(* ===================================================================== *)
(** * Further properties: the verdict of the validator                  *)
(* ===================================================================== *)

Section GateExtras.
Import Calendar Pandas Normalizer Healthcheck Notions Examples.


(** The next file of the load order: empty, and then the first empty one,
    or not. *)
Ltac next_file df i Hi Hbefore k :=
  destruct df as [|? ?];
  [ destruct i as [|i];
    [ injection Hi as <-; reflexivity
    | exfalso; by eapply (Hbefore k); [lia|reflexivity|] ]
  | destruct i as [|i]; [discriminate Hi|]; cbn [loaded]; simpl in Hi ].

(** X18.  Files are checked before content.  When a file is missing the
    validator fails with the missing-files message, whatever the other
    files hold; when all are present, it fails at the first empty table
    in load order, with that table's message. *)
Theorem main_reports_files_first s :
  ((exists name, (name, None) ∈ staged_sizes s) ->
   main s = Fatal "Missing normalized files")
  /\ (forall i name,
        (forall x, x ∈ staged_sizes s -> x.2 <> None) ->
        staged_sizes s !! i = Some (name, Some 0%nat) ->
        (forall j x, (j < i)%nat -> staged_sizes s !! j = Some x -> x.2 <> Some 0%nat) ->
        main s = Fatal (name +:+ " is empty")).
Proof.
  destruct s as [odt ods odc odpr odp ofp ofc ofe oft]. split.
  - intros (name & H).
    destruct odt as [dt|]; [|reflexivity]. destruct ods as [ds|]; [|reflexivity].
    destruct odc as [dc|]; [|reflexivity]. destruct odpr as [dpr|]; [|reflexivity].
    destruct odp as [dp|]; [|reflexivity]. destruct ofp as [fp|]; [|reflexivity].
    destruct ofc as [fc|]; [|reflexivity]. destruct ofe as [fe|]; [|reflexivity].
    destruct oft as [ft|]; [|reflexivity].
    exfalso. unfold staged_sizes in H. simpl in H.
    repeat (apply elem_of_cons in H as [[=]|H]). inversion H.
  - intros i name Hpresent Hi Hbefore.
    assert (forall name' (f : option nat),
              (name', f) ∈ staged_sizes
                 (Staged odt ods odc odpr odp ofp ofc ofe oft) -> is_Some f) as Hsome.
    { intros name' [n|] Hin; [by eexists|]. by destruct (Hpresent _ Hin). }
    unfold staged_sizes in *.
    cbn [dim_time_csv dim_state_csv dim_clients_csv dim_products_csv dim_policies_csv
         fact_policies_csv fact_claims_csv fact_expenses_csv fact_taxes_csv] in *.
    clear Hpresent.
    destruct odt as [dt|]; [|by destruct (Hsome _ None ltac:(repeat constructor))].
    destruct ods as [ds|]; [|by destruct (Hsome _ None ltac:(repeat constructor))].
    destruct odc as [dc|]; [|by destruct (Hsome _ None ltac:(repeat constructor))].
    destruct odpr as [dpr|]; [|by destruct (Hsome _ None ltac:(repeat constructor))].
    destruct odp as [dp|]; [|by destruct (Hsome _ None ltac:(repeat constructor))].
    destruct ofp as [fp|]; [|by destruct (Hsome _ None ltac:(repeat constructor))].
    destruct ofc as [fc|]; [|by destruct (Hsome _ None ltac:(repeat constructor))].
    destruct ofe as [fe|]; [|by destruct (Hsome _ None ltac:(repeat constructor))].
    destruct oft as [ft|]; [|by destruct (Hsome _ None ltac:(repeat constructor))].
    clear Hsome. rewrite main_present. cbn [fmap option_fmap option_map] in Hi, Hbefore.
    next_file dt i Hi Hbefore 0%nat. next_file ds i Hi Hbefore 1%nat.
    next_file dc i Hi Hbefore 2%nat. next_file dpr i Hi Hbefore 3%nat.
    next_file dp i Hi Hbefore 4%nat. next_file fp i Hi Hbefore 5%nat.
    next_file fc i Hi Hbefore 6%nat. next_file fe i Hi Hbefore 7%nat.
    next_file ft i Hi Hbefore 8%nat.
    by destruct i.
Qed.

End GateExtras.

(* ===================================================================== *)
(** * Further properties: the statements of the loader                  *)
(* ===================================================================== *)

Section LoaderExtras.
Import Pandas Loader Notions.

Variable files : table → option csv.
Variable accepts : statement → store → bool.
Variable commit_accepted : store → bool.
Variable read_csv : csv → option frame.
Variable to_csv : frame → option csv.

(** One more statement of [load], in the equation [E] of the result. *)
Ltac run_step E :=
  match type of E with
  | context [accepts ?s ?w] => destruct (accepts s w) eqn:?
  | context [clean_fact_claims_csv ?r ?w ?f] =>
      destruct (clean_fact_claims_csv r w f) eqn:?
  | context [files ?t] => destruct (files t) eqn:?
  | context [commit_accepted ?w] => destruct (commit_accepted w) eqn:?
  end;
  cbn [fst snd working committed sent] in E.

Ltac copies_leaf E :=
  injection E as <- <-;
  cbn [fst snd working committed sent load_order flat_map app];
  split;
  [ intros t cols data Hin;
    repeat (apply elem_of_cons in Hin as [Hin|Hin];
            [first [discriminate Hin
                   | injection Hin as -> -> ->;
                     split; [reflexivity
                            |first [intros _; assumption
                                   |intros Hne; by destruct Hne]]]|]);
    by apply elem_of_nil in Hin
  | intros t Ht;
    first [discriminate Ht
          | injection Ht as <-; split; [assumption|by eexists]] ].

(** X19.  Every COPY the loader sends names, in order, the columns the
    normalizer writes for that table, and for every table but fact_claims
    it streams the staged file itself.  A run that stops at a missing file
    has, within the transaction, already copied every table before it in
    load order. *)
Theorem load_copies_staged_columns db :
  let rc := load files accepts commit_accepted read_csv to_csv (connect db) in
  (forall t cols data, COPY t cols data ∈ sent (snd rc) ->
     cols = staged_columns t
     /\ (t <> fact_claims -> files t = Some data))
  /\ (forall t, fst rc = Raise (MissingCsvFile t) ->
        files t = None
        /\ exists rest, all_tables = load_order (sent (snd rc)) ++ t :: rest).
Proof.
  intros rc. subst rc.
  destruct (load files accepts commit_accepted read_csv to_csv (connect db))
    as [r c] eqn:E.
  unfold load, connect, copy, execute, csv_path, commit, raising, mbind, mret,
    session_bind, session_ret in E.
  cbn [fst snd working committed sent] in E.
  repeat (run_step E; [|solve [copies_leaf E]]).
  copies_leaf E.
Qed.



End LoaderExtras.
